(** * Gateway-Mcp: the dispatch, discovery-cache and description engine

    A shallow embedding of [gateway.py] and [gateway_mcp_server.py] and the
    properties of their routed entry points.

    - [Py]: the fragment of Python's [str] and [list] runtime the code uses
      (strings are sequences of Unicode code points, as [len] and slicing
      see them).
    - [FastMCP]: the two external collaborators at their boundary, the
      protocol client (an oracle for what the upstream answers) and the
      callable registry.
    - [gateway] and [gateway_mcp_server]: the two source files. *)

From stdpp Require Import gmap list strings.
From Stdlib Require Import NArith Ascii.

Set Warnings "-register-all".

Local Open Scope N_scope.
Local Open Scope nat_scope.

(** ** Python strings *)

Module Py.

(** A [str] is a sequence of code points. *)
Abbreviation str := (list N).

(** Source literals are written as UTF-8 text and decoded to code points. *)
Fixpoint utf8_decode (bs : list N) : str :=
  match bs with
  | [] => []
  | b0 :: r0 =>
    if (b0 <? 128)%N then b0 :: utf8_decode r0
    else match r0 with
    | [] => [b0]
    | b1 :: r1 =>
      if (b0 <? 224)%N then
        ((b0 - 192) * 64 + (b1 - 128))%N :: utf8_decode r1
      else match r1 with
      | [] => [b0; b1]
      | b2 :: r2 =>
        if (b0 <? 240)%N then
          ((b0 - 224) * 4096 + (b1 - 128) * 64 + (b2 - 128))%N
            :: utf8_decode r2
        else match r2 with
        | [] => [b0; b1; b2]
        | b3 :: r3 =>
          ((b0 - 240) * 262144 + (b1 - 128) * 4096
           + (b2 - 128) * 64 + (b3 - 128))%N :: utf8_decode r3
        end
      end
    end
  end.

Fixpoint bytes_of (s : string) : list N :=
  match s with
  | EmptyString => []
  | String a r => N_of_ascii a :: bytes_of r
  end.

Definition u (s : string) : str := utf8_decode (bytes_of s).

(** Literals stay folded in proofs; they are evaluated by [vm_compute]. *)
Global Arguments u : simpl never.
Global Opaque u.

(** The double quote and the line feed, which the literals above cannot hold. *)
Definition dq : str := [34%N].
Definition nl : str := [10%N].

(** [sep.join(parts)] *)
Fixpoint join (sep : str) (parts : list str) : str :=
  match parts with
  | [] => []
  | [p] => p
  | p :: rest => p ++ sep ++ join sep rest
  end.

(** [s.split(c)] for a one-character separator: never empty. *)
Fixpoint split (c : N) (s : str) : list str :=
  match s with
  | [] => [[]]
  | x :: r =>
    if (x =? c)%N then [] :: split c r
    else match split c r with
         | [] => [[x]]
         | l :: ls => (x :: l) :: ls
         end
  end.

(** [s.split(c)[0]] *)
Definition first_field (c : N) (s : str) : str :=
  match split c s with
  | [] => []
  | l :: _ => l
  end.

(** [ch.isspace()]: the code points [str.strip()] removes. *)
Definition isspace (c : N) : bool :=
  ((9 <=? c) && (c <=? 13) || (28 <=? c) && (c <=? 32)
   || (c =? 133) || (c =? 160) || (c =? 5760)
   || (8192 <=? c) && (c <=? 8202)
   || (c =? 8232) || (c =? 8233) || (c =? 8239) || (c =? 8287)
   || (c =? 12288))%N.

Fixpoint lstrip (s : str) : str :=
  match s with
  | [] => []
  | c :: r => if isspace c then lstrip r else s
  end.

Definition rstrip (s : str) : str := reverse (lstrip (reverse s)).

Definition strip (s : str) : str := rstrip (lstrip s).

(** [str(n)] for a non-negative integer. *)
Fixpoint digits (d : Decimal.uint) : str :=
  match d with
  | Decimal.Nil => []
  | Decimal.D0 r => 48%N :: digits r
  | Decimal.D1 r => 49%N :: digits r
  | Decimal.D2 r => 50%N :: digits r
  | Decimal.D3 r => 51%N :: digits r
  | Decimal.D4 r => 52%N :: digits r
  | Decimal.D5 r => 53%N :: digits r
  | Decimal.D6 r => 54%N :: digits r
  | Decimal.D7 r => 55%N :: digits r
  | Decimal.D8 r => 56%N :: digits r
  | Decimal.D9 r => 57%N :: digits r
  end.

Definition str_of_nat (n : nat) : str := digits (Nat.to_uint n).

(** [x or default] on an optional string: [None] and [""] are both falsy. *)
Definition or_else (x : option str) (default : str) : str :=
  match x with
  | Some (c :: r) => c :: r
  | _ => default
  end.

(** [s.startswith(p)] *)
Fixpoint startswith (p s : str) : bool :=
  match p, s with
  | [], _ => true
  | _ :: _, [] => false
  | a :: p', b :: s' => (a =? b)%N && startswith p' s'
  end.

(** [p in s] *)
Fixpoint contains (p s : str) : bool :=
  startswith p s ||
  match s with
  | [] => false
  | _ :: s' => contains p s'
  end.

End Py.

Import Py.

(** ** The external collaborators: protocol client and callable registry *)

Module FastMCP.

(** The structured argument of an upstream operation. *)
Inductive Value :=
| VNull
| VBool (b : bool)
| VInt (z : Z)
| VStr (s : str)
| VList (l : list Value)
| VDict (d : list (str * Value)).

Abbreviation Params := (gmap str Value).

(** What [list_tools()] yields per operation: [t.name], [t.description]. *)
Record Tool := { tool_name : str; tool_description : option str }.

(** A field value the code only ever passes to [str()]. *)
Record Obj := { py_str : str }.

(** A content item: [hasattr(item, 'text')], [hasattr(item, 'data')] and
    [str(item)]. A text field, where an item has one, is a string, as the
    protocol types it. *)
Record ContentItem := {
  text : option str;
  data : option Obj;
  item_str : str
}.

(** An invocation result: [content] is [None] when the result has no such
    attribute; [result_str] is [str(result)]. *)
Record Result := {
  content : option (list ContentItem);
  result_str : str
}.

(** [{"command": ..., "args": ..., "env": ...}] *)
Record Launch := {
  launch_command : str;
  launch_args : list str;
  launch_env : gmap str str
}.

Record ClientConfig := { mcpServers : gmap str Launch }.

(** What [except Exception as e] catches, observed through [str(e)] only. *)
Record Exception := { message : str }.

Definition KeyError (key : str) : Exception :=
  {| message := u "'" ++ key ++ u "'" |}.

(** How one [async with Client(cfg) as client: r = await client.op(...)]
    block can go: entering fails, the awaited call fails, the block runs and
    leaving fails, or everything succeeds. *)
Inductive Session (A : Type) :=
| EnterRaises (e : Exception)
| CallRaises (e : Exception)
| ExitRaises (r : A) (e : Exception)
| Clean (r : A).

Arguments EnterRaises {A} e.
Arguments CallRaises {A} e.
Arguments ExitRaises {A} r e.
Arguments Clean {A} r.

(** Every connection opened is journalled with the call it was opened for. *)
Inductive Event :=
| ListTools (cfg : ClientConfig)
| CallTool (cfg : ClientConfig) (operation : str) (arguments : Params).

Definition is_discovery (ev : Event) : bool :=
  match ev with
  | ListTools _ => true
  | CallTool _ _ _ => false
  end.

(** Number of enumerate-operations calls in a journal. *)
Definition discoveries (j : list Event) : nat :=
  length (filter (fun ev => is_discovery ev = true) j).

(** The upstream subsystems: what a connection answers, given everything
    that was asked before. *)
Record Upstream := {
  list_tools : list Event -> ClientConfig -> Session (list Tool);
  call_tool : list Event -> ClientConfig -> str -> Params -> Session Result
}.

(** A process: the gateway object and the journal of connections. *)
Record World (G : Type) := { self : G; journal : list Event }.

Arguments self {G} w.
Arguments journal {G} w.

Inductive Outcome (A : Type) :=
| Returned (a : A)
| Raised (e : Exception).

Arguments Returned {A} a.
Arguments Raised {A} e.

(** A method of the gateway: runs on a process, returns or raises. *)
Definition M (G A : Type) : Type := World G -> Outcome A * World G.

Definition ret {G A} (a : A) : M G A := fun w => (Returned a, w).

(** [try: body  except Exception as e: handler(e)] *)
Definition try_except {G A} (body : M G A) (handler : Exception -> M G A)
  : M G A :=
  fun w =>
    match body w with
    | (Returned a, w') => (Returned a, w')
    | (Raised e, w') => handler e w'
    end.

(** [async with Client(cfg) as client: r = await client.op(...); block(r)]
    where the block itself cannot raise. *)
Definition scoped {G A B} (ev : Event) (answer : list Event -> Session A)
    (block : A -> World G -> B * World G) : M G B :=
  fun w =>
    let w1 := {| self := self w; journal := journal w ++ [ev] |} in
    match answer (journal w) with
    | EnterRaises e => (Raised e, w1)
    | CallRaises e => (Raised e, w1)
    | ExitRaises r e => (Raised e, snd (block r w1))
    | Clean r => let (b, w2) := block r w1 in (Returned b, w2)
    end.

(** The callable registry. A registered callable closes over the subsystem
    config of type [S] it dispatches for. The registry is not part of the
    repository: it is taken as the library documents it, a table keyed by
    tool name in which, with the settings the gateway constructs it with
    ([FastMCP(name=name)]), registering a name again replaces the earlier
    callable. *)
Record Registered (S : Type) := { reg_description : str; reg_server : S }.

Arguments reg_description {S} r.
Arguments reg_server {S} r.

Record App (S : Type) := {
  app_name : str;
  app_tools : gmap str (Registered S)
}.

Arguments app_name {S} a.
Arguments app_tools {S} a.

Definition new_app {S} (name : str) : App S :=
  {| app_name := name; app_tools := ∅ |}.

(** [@app.tool(name=..., description=...)] *)
Definition tool {S} (app : App S) (name description : str) (server : S)
  : App S :=
  {| app_name := app_name app;
     app_tools := <[name := {| reg_description := description;
                               reg_server := server |}]> (app_tools app) |}.

(** Results of any shape. An attribute the code reads may hold any object:
    a [str], or an object of another type, known by the name of its type and
    by its [str()]. *)
Inductive PyValue :=
| PyStr (s : str)
| PyOther (type_name shown : str).

(** A content item of any shape: the [text] attribute, if there is one, may
    hold any object; the [data] attribute is only ever passed to [str()]. *)
Record AnyItem := {
  any_text : option PyValue;
  any_data : option Obj;
  any_item_str : str
}.

(** [result.content] of any result: absent or falsy; a non-empty iterable,
    with its elements; or a truthy object that cannot be iterated, with the
    name of its type. *)
Inductive AnyContent :=
| Falsy
| Items (first : AnyItem) (rest : list AnyItem)
| NotIterable (type_name : str).

Record AnyResult := { any_content : AnyContent; any_result_str : str }.

Definition TypeError (text : str) : Exception := {| message := text |}.

(** The check of [sep.join(parts)]: every part must be a [str]; the first
    one that is not raises, with its position. *)
Fixpoint strs_of (i : nat) (parts : list PyValue) : Outcome (list str) :=
  match parts with
  | [] => Returned []
  | PyStr s :: rest =>
    match strs_of (S i) rest with
    | Returned l => Returned (s :: l)
    | Raised e => Raised e
    end
  | PyOther ty _ :: _ =>
    Raised (TypeError (u "sequence item " ++ str_of_nat i
                       ++ u ": expected str instance, " ++ ty ++ u " found"))
  end.

(** [sep.join(parts)] on parts of any type. *)
Definition py_join (sep : str) (parts : list PyValue) : Outcome str :=
  match strs_of 0 parts with
  | Returned l => Returned (join sep l)
  | Raised e => Raised e
  end.

End FastMCP.

Import FastMCP.

(** ** The configuration document *)

Module ConfigFile.

(** What [json.load] yields for a document of the configuration format. One
    subsystem entry is a JSON object in which each of the keys ["command"],
    ["args"] and ["env"] may be absent. *)
Record Entry := {
  entry_command : option str;
  entry_args : option (list str);
  entry_env : option (gmap str str)
}.

(** The document: the ["mcpServers"] key may be absent; when present, its
    entries come in the order of the file, as [dict.items()] yields them. *)
Record Document := { doc_mcpServers : option (list (str * Entry)) }.

End ConfigFile.

Import ConfigFile.

(** ** gateway_mcp_server.py *)

Module gateway_mcp_server.

Record ServerConfig := {
  name : str;
  command : str;
  args : list str;
  env : gmap str str;
  tools : list str
}.

Definition client_config (self : ServerConfig) : ClientConfig :=
  {| mcpServers :=
       {[ name self := {| launch_command := command self;
                          launch_args := args self;
                          launch_env := env self |} ]} |}.

(** [server.tools = tools] *)
Definition set_tools (server : ServerConfig) (ts : list str) : ServerConfig :=
  {| name := name server; command := command server; args := args server;
     env := env server; tools := ts |}.

Record MCPGateway := {
  app : App ServerConfig;
  servers : gmap str ServerConfig;
  _tools_cache : gmap str (list str)
}.

Abbreviation Process := (World MCPGateway).

(** [MCPGateway(name)] *)
Definition __init__ (name : str) : MCPGateway :=
  {| app := new_app name; servers := ∅; _tools_cache := ∅ |}.

(** [self._tools_cache[key] = entries] *)
Definition cache_store (key : str) (entries : list str) (w : Process)
  : Process :=
  {| self := {| app := app (self w); servers := servers (self w);
                _tools_cache := <[key := entries]> (_tools_cache (self w)) |};
     journal := journal w |}.

(** [f"{t.name}: {t.description or '无描述'}"] *)
Definition long_form (t : Tool) : str :=
  tool_name t ++ u ": " ++ or_else (tool_description t) (u "无描述").

(** [(t.description or "无描述").strip().split('\n')[0]] *)
Definition first_line (t : Tool) : str :=
  first_field 10 (strip (or_else (tool_description t) (u "无描述"))).

(** One round of the formatting loop of [_fetch_tools_dynamic]. *)
Definition short_form (t : Tool) : str :=
  let desc := first_line t in
  let desc := if 80 <? length desc then take 77 desc ++ u "..." else desc in
  tool_name t ++ u ": " ++ desc.

Definition _fetch_tools_dynamic (up : Upstream) (server : ServerConfig)
  : M MCPGateway (list str) :=
  scoped (ListTools (client_config server))
    (fun j => list_tools up j (client_config server))
    (fun tools w =>
       let formatted_tools := map short_form tools in
       (formatted_tools, cache_store (name server) (map long_form tools) w)).

Definition base_desc (server : ServerConfig) : str :=
  u "与 **" ++ name server ++ u "** 子系统交互。" ++ nl
  ++ nl
  ++ u "**参数**:" ++ nl
  ++ u "- `action`: 要调用的工具名 (使用 " ++ dq ++ u "list" ++ dq
  ++ u " 查看所有可用工具)" ++ nl
  ++ u "- `params`: 工具参数 (字典)" ++ nl
  ++ nl
  ++ u "**示例**: action=" ++ dq ++ u "read_file" ++ dq ++ u ", params={"
  ++ dq ++ u "path" ++ dq ++ u ": " ++ dq ++ u "/tmp/test.txt" ++ dq ++ u "}".

Definition _build_description (server : ServerConfig) : str :=
  match tools server with
  | _ :: _ =>
    let display_tools := take 30 (tools server) in
    let tools_list := join nl (map (fun t => u "- " ++ t) display_tools) in
    let more_msg :=
      if 30 <? length (tools server)
      then nl ++ u "... (还有 " ++ str_of_nat (length (tools server) - 30)
           ++ u " 个工具，请使用 list 查看完整列表)"
      else [] in
    base_desc server ++ nl ++ nl ++ u "**可用工具列表** (部分):" ++ nl
    ++ tools_list ++ more_msg
  | [] => base_desc server
  end.

Definition _extract_content (result : Result) : str :=
  match content result with
  | None | Some [] => result_str result
  | Some items =>
    let parts :=
      map (fun item =>
             match text item with
             | Some t => t
             | None =>
               match data item with
               | Some d => py_str d
               | None => item_str item
               end
             end) items in
    join nl parts
  end.

(** [_extract_content] as the source has it, on a result of any shape;
    [_extract_content] above is its restriction to results whose text fields
    are strings. *)
Definition _extract_content_any (result : AnyResult) : Outcome str :=
  match any_content result with
  | Falsy => Returned (any_result_str result)
  | NotIterable ty =>
    Raised (TypeError (u "'" ++ ty ++ u "' object is not iterable"))
  | Items first rest =>
    let parts :=
      map (fun item =>
             match any_text item with
             | Some t => t
             | None =>
               match any_data item with
               | Some d => PyStr (py_str d)
               | None => PyStr (any_item_str item)
               end
             end) (first :: rest) in
    py_join nl parts
  end.

(** The response of a [list] action for the cached entries [tools]. *)
Definition list_response (server : ServerConfig) (tools : list str) : str :=
  u "📦 [" ++ name server ++ u "] 可用工具 (" ++ str_of_nat (length tools)
  ++ u " 个):" ++ nl ++ nl
  ++ join nl (map (fun t => u "  • " ++ t) tools).

Definition _list_tools (up : Upstream) (server : ServerConfig)
  : M MCPGateway str :=
  fun w =>
    match _tools_cache (self w) !! name server with
    | Some tools => (Returned (list_response server tools), w)
    | None =>
      match
        scoped (ListTools (client_config server))
          (fun j => list_tools up j (client_config server))
          (fun tools w => (tt, cache_store (name server)
                                 (map long_form tools) w)) w
      with
      | (Raised e, w') =>
        (Returned (u "❌ 无法获取工具列表: " ++ message e), w')
      | (Returned _, w') =>
        match _tools_cache (self w') !! name server with
        | Some tools => (Returned (list_response server tools), w')
        | None => (Raised (KeyError (name server)), w')
        end
      end
    end.

Definition _call_tool (up : Upstream) (server : ServerConfig)
    (action : str) (params : Params) : M MCPGateway str :=
  try_except
    (scoped (CallTool (client_config server) action params)
       (fun j => call_tool up j (client_config server) action params)
       (fun result w => (_extract_content result, w)))
    (fun e =>
       ret (u "❌ [" ++ name server ++ u "] 调用 `" ++ action
            ++ u "` 失败: " ++ message e)).

Definition _handle_dispatch (up : Upstream) (server : ServerConfig)
    (action : str) (params : Params) : M MCPGateway str :=
  if decide (action = u "list")
  then _list_tools up server
  else _call_tool up server action params.

(** The closure registered for [server]: [params] may be omitted. *)
Definition dispatch (up : Upstream) (server : ServerConfig)
    (action : str) (params : option Params) : M MCPGateway str :=
  _handle_dispatch up server action (default ∅ params).

Definition _register_tool (server : ServerConfig) (w : Process) : Process :=
  {| self := {| app := tool (app (self w)) (u "use_" ++ name server)
                         (_build_description server) server;
                servers := servers (self w);
                _tools_cache := _tools_cache (self w) |};
     journal := journal w |}.

(** [self.servers[server.name] = server] *)
Definition servers_store (server : ServerConfig) (w : Process) : Process :=
  {| self := {| app := app (self w);
                servers := <[name server := server]> (servers (self w));
                _tools_cache := _tools_cache (self w) |};
     journal := journal w |}.

(** [add_server]: the [try] around discovery swallows every failure; the
    messages it prints are not modelled. Discovery is run as [load_config]
    runs it when the module is imported, outside a running event loop; under
    a running loop [asyncio.run] itself raises before any connection is
    made, and the [try] swallows that too. *)
Definition add_server (up : Upstream) (server : ServerConfig)
  : M MCPGateway unit :=
  fun w =>
    let (server, w) :=
      match _fetch_tools_dynamic up server w with
      | (Returned tools, w') => (set_tools server tools, w')
      | (Raised _, w') => (server, w')
      end in
    (Returned tt, _register_tool server (servers_store server w)).

(** [ServerConfig(name=name, command=cfg["command"],
    args=cfg.get("args", []), env=cfg.get("env", {}))] *)
Definition parse_entry (name : str) (cfg : Entry) : Outcome ServerConfig :=
  match entry_command cfg with
  | None => Raised (KeyError (u "command"))
  | Some c =>
    Returned {| name := name; command := c;
                args := default [] (entry_args cfg);
                env := default ∅ (entry_env cfg);
                tools := [] |}
  end.

(** The loop of [load_config] over [data.get("mcpServers", {}).items()]. *)
Fixpoint load_entries (up : Upstream) (items : list (str * Entry))
  : M MCPGateway unit :=
  fun w =>
    match items with
    | [] => (Returned tt, w)
    | (name, cfg) :: rest =>
      match parse_entry name cfg with
      | Raised e => (Raised e, w)
      | Returned server =>
        match add_server up server w with
        | (Returned _, w') => load_entries up rest w'
        | (Raised e, w') => (Raised e, w')
        end
      end
    end.

(** [load_config], from the parsed document on. *)
Definition load_config (up : Upstream) (data : Document)
  : M MCPGateway unit :=
  load_entries up (default [] (doc_mcpServers data)).

End gateway_mcp_server.

(** ** gateway.py *)

Module gateway.

Record ServerConfig := {
  name : str;
  command : str;
  args : list str;
  env : gmap str str
}.

Definition client_config (self : ServerConfig) : ClientConfig :=
  {| mcpServers :=
       {[ name self := {| launch_command := command self;
                          launch_args := args self;
                          launch_env := env self |} ]} |}.

Record MCPGateway := {
  app : App ServerConfig;
  servers : gmap str ServerConfig;
  _tools_cache : gmap str (list str)
}.

Abbreviation Process := (World MCPGateway).

Definition __init__ (name : str) : MCPGateway :=
  {| app := new_app name; servers := ∅; _tools_cache := ∅ |}.

Definition cache_store (key : str) (entries : list str) (w : Process)
  : Process :=
  {| self := {| app := app (self w); servers := servers (self w);
                _tools_cache := <[key := entries]> (_tools_cache (self w)) |};
     journal := journal w |}.

Definition long_form (t : Tool) : str :=
  tool_name t ++ u ": " ++ or_else (tool_description t) (u "无描述").

Definition _build_description (name : str) : str :=
  u "与 **" ++ name ++ u "** 子系统交互。" ++ nl
  ++ nl
  ++ u "**参数**:" ++ nl
  ++ u "- `action`: 要调用的工具名 (使用 " ++ dq ++ u "list" ++ dq
  ++ u " 查看所有可用工具)" ++ nl
  ++ u "- `params`: 工具参数 (字典)" ++ nl
  ++ nl
  ++ u "**示例**: action=" ++ dq ++ u "read_file" ++ dq ++ u ", params={"
  ++ dq ++ u "path" ++ dq ++ u ": " ++ dq ++ u "/tmp/test.txt" ++ dq ++ u "}".

Definition _extract_content (result : Result) : str :=
  match content result with
  | None | Some [] => result_str result
  | Some items =>
    let parts :=
      map (fun item =>
             match text item with
             | Some t => t
             | None =>
               match data item with
               | Some d => py_str d
               | None => item_str item
               end
             end) items in
    join nl parts
  end.

(** [_extract_content] as the source has it, on a result of any shape;
    [_extract_content] above is its restriction to results whose text fields
    are strings. *)
Definition _extract_content_any (result : AnyResult) : Outcome str :=
  match any_content result with
  | Falsy => Returned (any_result_str result)
  | NotIterable ty =>
    Raised (TypeError (u "'" ++ ty ++ u "' object is not iterable"))
  | Items first rest =>
    let parts :=
      map (fun item =>
             match any_text item with
             | Some t => t
             | None =>
               match any_data item with
               | Some d => PyStr (py_str d)
               | None => PyStr (any_item_str item)
               end
             end) (first :: rest) in
    py_join nl parts
  end.

Definition list_response (server : ServerConfig) (tools : list str) : str :=
  u "📦 [" ++ name server ++ u "] 可用工具 (" ++ str_of_nat (length tools)
  ++ u " 个):" ++ nl ++ nl
  ++ join nl (map (fun t => u "  • " ++ t) tools).

Definition _list_tools (up : Upstream) (server : ServerConfig)
  : M MCPGateway str :=
  fun w =>
    let fetched :=
      match _tools_cache (self w) !! name server with
      | None =>
        scoped (ListTools (client_config server))
          (fun j => list_tools up j (client_config server))
          (fun tools w => (tt, cache_store (name server)
                                 (map long_form tools) w)) w
      | Some _ => (Returned tt, w)
      end in
    match fetched with
    | (Raised e, w') =>
      (Returned (u "❌ 无法获取工具列表: " ++ message e), w')
    | (Returned _, w') =>
      match _tools_cache (self w') !! name server with
      | Some tools => (Returned (list_response server tools), w')
      | None => (Raised (KeyError (name server)), w')
      end
    end.

Definition _call_tool (up : Upstream) (server : ServerConfig)
    (action : str) (params : Params) : M MCPGateway str :=
  try_except
    (scoped (CallTool (client_config server) action params)
       (fun j => call_tool up j (client_config server) action params)
       (fun result w => (_extract_content result, w)))
    (fun e =>
       ret (u "❌ [" ++ name server ++ u "] 调用 `" ++ action
            ++ u "` 失败: " ++ message e)).

Definition _handle_dispatch (up : Upstream) (server : ServerConfig)
    (action : str) (params : Params) : M MCPGateway str :=
  if decide (action = u "list")
  then _list_tools up server
  else _call_tool up server action params.

Definition dispatch (up : Upstream) (server : ServerConfig)
    (action : str) (params : option Params) : M MCPGateway str :=
  _handle_dispatch up server action (default ∅ params).

Definition _register_tool (server : ServerConfig) (w : Process) : Process :=
  {| self := {| app := tool (app (self w)) (u "use_" ++ name server)
                         (_build_description (name server)) server;
                servers := servers (self w);
                _tools_cache := _tools_cache (self w) |};
     journal := journal w |}.

Definition servers_store (server : ServerConfig) (w : Process) : Process :=
  {| self := {| app := app (self w);
                servers := <[name server := server]> (servers (self w));
                _tools_cache := _tools_cache (self w) |};
     journal := journal w |}.

Definition add_server (server : ServerConfig) : M MCPGateway unit :=
  fun w => (Returned tt, _register_tool server (servers_store server w)).

Definition parse_entry (name : str) (cfg : Entry) : Outcome ServerConfig :=
  match entry_command cfg with
  | None => Raised (KeyError (u "command"))
  | Some c =>
    Returned {| name := name; command := c;
                args := default [] (entry_args cfg);
                env := default ∅ (entry_env cfg) |}
  end.

Fixpoint load_entries (items : list (str * Entry)) : M MCPGateway unit :=
  fun w =>
    match items with
    | [] => (Returned tt, w)
    | (name, cfg) :: rest =>
      match parse_entry name cfg with
      | Raised e => (Raised e, w)
      | Returned server =>
        match add_server server w with
        | (Returned _, w') => load_entries rest w'
        | (Raised e, w') => (Raised e, w')
        end
      end
    end.

Definition load_config (data : Document) : M MCPGateway unit :=
  load_entries (default [] (doc_mcpServers data)).

End gateway.

(** ** Vocabulary of the properties *)

Module Props.

(** The exception a session raises, if any. *)
Definition session_error {A} (s : Session A) : option Exception :=
  match s with
  | EnterRaises e | CallRaises e | ExitRaises _ e => Some e
  | Clean _ => None
  end.

(** The exception of a session in which the connection or the awaited call
    failed, so that the block after the call never ran. *)
Definition call_error {A} (s : Session A) : option Exception :=
  match s with
  | EnterRaises e | CallRaises e => Some e
  | ExitRaises _ _ | Clean _ => None
  end.

(** The part of a content item in the normalized text, in the words of the
    specification: the text field, else the data field stringified, else the
    item stringified. *)
Definition item_part (item : ContentItem) : str :=
  from_option id
    (from_option py_str (item_str item) (data item))
    (text item).

(** The two failure strings. *)
Definition list_failure (e : Exception) : str :=
  u "❌ 无法获取工具列表: " ++ message e.

Definition call_failure (subsystem action : str) (e : Exception) : str :=
  u "❌ [" ++ subsystem ++ u "] 调用 `" ++ action ++ u "` 失败: "
  ++ message e.

(** The process after one more connection was opened. *)
Definition connected {G} (w : World G) (ev : Event) : World G :=
  {| self := self w; journal := journal w ++ [ev] |}.

Definition bullet : str := u "  • ".

(** Lines of a response that start with the bullet. *)
Definition bulleted_lines (body : str) : nat :=
  length (filter (fun l => startswith bullet l = true) (split 10 body)).

(** Bulleted lines inside one entry, after its first line. *)
Definition embedded_bullets (entry : str) : nat :=
  length (filter (fun l => startswith bullet l = true)
                 (tail (split 10 entry))).

(** The preview block of a description, in the words of the specification:
    the first [min total 30] entries as [- entry] lines, then the count of
    the remaining entries if there are more than 30. *)
Definition preview_block (entries : list str) : str :=
  let total := length entries in
  u "**可用工具列表** (部分):" ++ nl
  ++ join nl (map (fun t => u "- " ++ t) (take (min total 30) entries))
  ++ (if decide (30 < total)
      then nl ++ u "... (还有 " ++ str_of_nat (total - 30)
           ++ u " 个工具，请使用 list 查看完整列表)"
      else []).

End Props.

Import Props.

(** ** Relations between configs, processes and the two files *)

Module Relations.

(** The name under which a subsystem's entry point is registered. *)
Definition entry_point (subsystem : str) : str := u "use_" ++ subsystem.

(** Two configs that launch the same subsystem: they differ at most in the
    discovered short-form list. *)
Definition same_launch (s s' : gateway_mcp_server.ServerConfig) : Prop :=
  gateway_mcp_server.name s = gateway_mcp_server.name s'
  ∧ gateway_mcp_server.command s = gateway_mcp_server.command s'
  ∧ gateway_mcp_server.args s = gateway_mcp_server.args s'
  ∧ gateway_mcp_server.env s = gateway_mcp_server.env s'.

(** The subsystem map and the registry agree: every stored config sits
    under its own name and has an entry point that dispatches for it and is
    described from it, and every entry point belongs to a stored config. *)
Definition registry_consistent (g : gateway_mcp_server.MCPGateway) : Prop :=
  (∀ n s, gateway_mcp_server.servers g !! n = Some s →
     gateway_mcp_server.name s = n
     ∧ app_tools (gateway_mcp_server.app g) !! entry_point n
       = Some {| reg_description := gateway_mcp_server._build_description s;
                 reg_server := s |})
  ∧ (∀ k r, app_tools (gateway_mcp_server.app g) !! k = Some r →
       k = entry_point (gateway_mcp_server.name (reg_server r))
       ∧ gateway_mcp_server.servers g
           !! gateway_mcp_server.name (reg_server r)
         = Some (reg_server r)).

(** The config of [gateway.py] for a config of [gateway_mcp_server.py]. *)
Definition forget_tools (s : gateway_mcp_server.ServerConfig)
  : gateway.ServerConfig :=
  {| gateway.name := gateway_mcp_server.name s;
     gateway.command := gateway_mcp_server.command s;
     gateway.args := gateway_mcp_server.args s;
     gateway.env := gateway_mcp_server.env s |}.

(** Processes of the two files with the same tool cache and journal. *)
Definition same_process (w : gateway_mcp_server.Process)
    (w' : gateway.Process) : Prop :=
  gateway_mcp_server._tools_cache (self w) = gateway._tools_cache (self w')
  ∧ journal w = journal w'.

(** The text parts of a result all of whose items have a text field. *)
Definition text_item (t : str) : ContentItem :=
  {| text := Some t; data := None; item_str := [] |}.

(** A result whose only content is the text [t]. *)
Definition text_result (t : str) : Result :=
  {| content := Some [text_item t]; result_str := [] |}.






(** A connection opened to invoke an upstream operation named ["list"]. *)
Definition invokes_list (ev : Event) : Prop :=
  ∃ cfg arguments, ev = CallTool cfg (u "list") arguments.

End Relations.

Import Relations.

(** ** Fixtures: concrete subsystems and upstreams *)

Module Fixtures.

Definition boom : Exception := {| message := u "boom" |}.

(** An upstream that refuses every connection. *)
Definition down : Upstream :=
  {| list_tools := fun _ _ => EnterRaises boom;
     call_tool := fun _ _ _ _ => EnterRaises boom |}.

Definition read_file : Tool :=
  {| tool_name := u "read_file";
     tool_description := Some (u "Read a file." ++ nl ++ u "  • path") |}.

Definition stat : Tool := {| tool_name := u "stat"; tool_description := None |}.

Definition hello : Result :=
  {| content := Some [ {| text := Some (u "hello"); data := None;
                          item_str := u "TextContent" |};
                       {| text := None; data := Some {| py_str := u "aGk=" |};
                          item_str := u "ImageContent" |} ];
     result_str := u "CallToolResult" |}.

(** An operation whose description has a first line of 100 characters. *)
Definition wordy : Tool :=
  {| tool_name := u "grep";
     tool_description := Some (replicate 100 120%N ++ nl ++ u "more") |}.

Definition up_wordy : Upstream :=
  {| list_tools := fun _ _ => Clean [wordy];
     call_tool := fun _ _ _ _ => Clean hello |}.

(** An upstream that answers every call. *)
Definition up : Upstream :=
  {| list_tools := fun _ _ => Clean [read_file; stat];
     call_tool := fun _ _ _ _ => Clean hello |}.

(** An upstream whose first connection is refused and that answers after. *)
Definition flaky : Upstream :=
  {| list_tools := fun j _ =>
       match j with [] => EnterRaises boom | _ => Clean [stat] end;
     call_tool := fun _ _ _ _ => Clean hello |}.

Definition fs : gateway_mcp_server.ServerConfig :=
  {| gateway_mcp_server.name := u "fs";
     gateway_mcp_server.command := u "npx";
     gateway_mcp_server.args := [u "server-filesystem"];
     gateway_mcp_server.env := ∅;
     gateway_mcp_server.tools := [] |}.

Definition fs2 : gateway_mcp_server.ServerConfig :=
  {| gateway_mcp_server.name := u "fs";
     gateway_mcp_server.command := u "uvx";
     gateway_mcp_server.args := [];
     gateway_mcp_server.env := ∅;
     gateway_mcp_server.tools := [] |}.

(** The same subsystem after a discovery of 31 operations. *)
Definition fs31 : gateway_mcp_server.ServerConfig :=
  gateway_mcp_server.set_tools fs (replicate 31 (u "a: b")).

Definition fresh : gateway_mcp_server.Process :=
  {| self := gateway_mcp_server.__init__ (u "MCP-Gateway"); journal := [] |}.

Definition fs' : gateway.ServerConfig :=
  {| gateway.name := u "fs";
     gateway.command := u "npx";
     gateway.args := [u "server-filesystem"];
     gateway.env := ∅ |}.

Definition fs2' : gateway.ServerConfig :=
  {| gateway.name := u "fs";
     gateway.command := u "uvx";
     gateway.args := [];
     gateway.env := ∅ |}.

Definition fresh' : gateway.Process :=
  {| self := gateway.__init__ (u "MCP-Gateway"); journal := [] |}.

(** A configuration document with two subsystems. *)
Definition two_servers : Document :=
  {| doc_mcpServers :=
       Some [ (u "fs", {| entry_command := Some (u "npx");
                          entry_args := Some [u "server-filesystem"];
                          entry_env := None |});
              (u "git", {| entry_command := Some (u "uvx");
                           entry_args := None;
                           entry_env := None |}) ] |}.

(** The same document with a third entry that lacks its command and a
    fourth one after it. *)
Definition broken_third : Document :=
  {| doc_mcpServers :=
       Some [ (u "fs", {| entry_command := Some (u "npx");
                          entry_args := Some [u "server-filesystem"];
                          entry_env := None |});
              (u "git", {| entry_command := Some (u "uvx");
                           entry_args := None;
                           entry_env := None |});
              (u "db", {| entry_command := None;
                          entry_args := Some [];
                          entry_env := None |});
              (u "web", {| entry_command := Some (u "node");
                           entry_args := None;
                           entry_env := None |}) ] |}.

(** An upstream whose invocations succeed with the text of a failure. *)
Definition mimic : Upstream :=
  {| list_tools := fun _ _ => Clean [stat];
     call_tool := fun _ _ _ _ =>
       Clean (text_result (call_failure (u "fs") (u "stat") boom)) |}.

(** An upstream whose enumeration succeeds and whose connection then fails
    to close. *)
Definition closing_fails : Upstream :=
  {| list_tools := fun _ _ => ExitRaises [stat] boom;
     call_tool := fun _ _ _ _ => ExitRaises hello boom |}.


End Fixtures.

(** ** Checks of the string runtime *)

Example utf8_cross : u "❌" = [10060%N].
Proof. reflexivity. Qed.

Example utf8_package : u "📦" = [128230%N].
Proof. reflexivity. Qed.

Example utf8_no_description : u "无描述" = [26080%N; 25551%N; 36848%N].
Proof. reflexivity. Qed.

Example utf8_bullet : u "  • " = [32%N; 32%N; 8226%N; 32%N].
Proof. reflexivity. Qed.

Example split_lines_ex : split 10 (u "ab" ++ nl ++ nl ++ u "c") = [u "ab"; []; u "c"].
Proof. reflexivity. Qed.

Example strip_ex : strip (u "  a b " ++ nl) = u "a b".
Proof. reflexivity. Qed.

Example str_of_nat_ex : str_of_nat 120 = u "120".
Proof. reflexivity. Qed.


(** ** Lemmas on the string runtime *)

Section StrLemmas.

Implicit Types (p s x y : str) (c : N).

Lemma startswith_app p s : startswith p (p ++ s) = true.
Proof.
  induction p as [|a p IH]; simpl; [done|].
  by rewrite N.eqb_refl.
Qed.

Lemma contains_here p s : startswith p s = true → contains p s = true.
Proof. intros H. destruct s; simpl in *; by rewrite H. Qed.

Lemma contains_app x p y : contains p (x ++ p ++ y) = true.
Proof.
  induction x as [|a x IH]; simpl.
  - apply contains_here, startswith_app.
  - rewrite IH. apply orb_true_r.
Qed.

Lemma contains_end x p : contains p (x ++ p) = true.
Proof. pose proof (contains_app x p []) as H. by rewrite app_nil_r in H. Qed.

Lemma split_nonempty c s : split c s ≠ [].
Proof.
  destruct s as [|a s]; simpl; [done|].
  destruct (a =? c)%N; [done|]. by destruct (split c s).
Qed.

Lemma split_app c x y : split c (x ++ c :: y) = split c x ++ split c y.
Proof.
  induction x as [|a x IH]; simpl.
  - by rewrite N.eqb_refl.
  - destruct (a =? c)%N; rewrite IH; [done|].
    destruct (split c x) as [|l ls] eqn:E; [|done].
    by destruct (split_nonempty c x).
Qed.

Lemma split_no_sep c s : c ∉ s → split c s = [s].
Proof.
  induction s as [|a s IH]; [done|].
  intros Hc. simpl.
  destruct (N.eqb_spec a c) as [->|_].
  - exfalso. apply Hc. by left.
  - rewrite IH; [done|]. intros ?. apply Hc. by right.
Qed.

Lemma split_prefix c p s :
  c ∉ p → split c (p ++ s) = (p ++ hd [] (split c s)) :: tail (split c s).
Proof.
  induction p as [|a p IH]; intros Hc; simpl.
  - destruct (split c s) eqn:E; [|done]. by destruct (split_nonempty c s).
  - destruct (N.eqb_spec a c) as [->|_].
    + exfalso. apply Hc. by left.
    + rewrite IH; [done|]. intros ?. apply Hc. by right.
Qed.

Lemma first_field_prefix c s :
  ∃ r, s = first_field c s ++ r ∧ (c ∉ first_field c s)
       ∧ (r = [] ∨ ∃ r', r = c :: r').
Proof.
  unfold first_field. induction s as [|a s [r [Hs [Hc Hr]]]]; simpl.
  - exists []. split_and!; [done| |by left]. by intros ?%elem_of_nil.
  - destruct (N.eqb_spec a c) as [->|Hne].
    + exists (c :: s). split_and!; [done| |right; by eexists].
      by intros ?%elem_of_nil.
    + destruct (split c s) as [|l ls] eqn:E.
      { by destruct (split_nonempty c s). }
      exists r. split_and!; [by rewrite Hs at 1| |done].
      intros [?|?]%elem_of_cons; [by subst|done].
Qed.

Lemma join_cons2 sep x y l : join sep (x :: y :: l) = x ++ sep ++ join sep (y :: l).
Proof. done. Qed.

End StrLemmas.

(** ** Result normalization *)

Lemma extract_server_items (r : Result) (items : list ContentItem) :
  content r = Some items → items ≠ [] →
  gateway_mcp_server._extract_content r = join nl (map item_part items).
Proof.
  unfold gateway_mcp_server._extract_content. intros -> Hne.
  destruct items as [|i l]; [done|]. reflexivity.
Qed.

Lemma extract_gateway_same (r : Result) :
  gateway._extract_content r = gateway_mcp_server._extract_content r.
Proof. done. Qed.

(** On results typed as the protocol types them, whose text fields are
    strings, [_extract_content] is a total function to strings. A result
    with no content attribute or with an empty content list yields
    [str(result)]; otherwise the items are mapped, in order, to their text
    field if present, else to their data field stringified, else to
    [str(item)], and the parts are joined with line feeds. Both source files
    agree. *)
Theorem extract_content_normalizes (r : Result) :
  (content r = None ∨ content r = Some [] →
   gateway_mcp_server._extract_content r = result_str r)
  ∧ (∀ items, content r = Some items → items ≠ [] →
     gateway_mcp_server._extract_content r = join nl (map item_part items)
     ∧ length (map item_part items) = length items
     ∧ ∀ i item, items !! i = Some item →
         ∃ part, map item_part items !! i = Some part
           ∧ (∀ t, text item = Some t → part = t)
           ∧ (∀ d, text item = None → data item = Some d → part = py_str d)
           ∧ (text item = None → data item = None → part = item_str item))
  ∧ gateway._extract_content r = gateway_mcp_server._extract_content r.
Proof.
  split_and!.
  - unfold gateway_mcp_server._extract_content. by intros [-> | ->].
  - intros items Hc Hne. split_and!.
    + by apply extract_server_items.
    + by rewrite length_map.
    + intros i item Hi. exists (item_part item). split_and!.
      * by rewrite list_lookup_fmap, Hi.
      * unfold item_part. by intros t ->.
      * unfold item_part. by intros d -> ->.
      * unfold item_part. by intros -> ->.
  - apply extract_gateway_same.
Qed.

Lemma extract_content_normalizes_witness :
  gateway_mcp_server._extract_content Fixtures.hello
  = u "hello" ++ nl ++ u "aGk="
  ∧ gateway_mcp_server._extract_content
      {| content := Some []; result_str := u "CallToolResult" |}
    = u "CallToolResult".
Proof.
  split.
  - destruct (extract_content_normalizes Fixtures.hello) as (_ & H & _).
    destruct (H _ eq_refl) as (-> & _); [done|]. reflexivity.
  - destruct (extract_content_normalizes
                {| content := Some []; result_str := u "CallToolResult" |})
      as (H & _).
    apply H. by right.
Defined.

(** *** Results of any shape *)

Section AnyResults.









End AnyResults.

(** ** Dispatch *)

(** C2. The registered closure routes on the action alone: the literal
    ["list"] goes to the list-operations handler of the subsystem, every
    other action string goes to the invoke handler with the action as the
    operation name and the params as its argument, and omitted params are
    the empty map. Both source files agree. *)
Theorem dispatch_routes (up : Upstream) (action : str)
    (params : option Params) :
  (∀ server, action = u "list" →
     gateway_mcp_server.dispatch up server action params
     = gateway_mcp_server._list_tools up server)
  ∧ (∀ server, action ≠ u "list" →
     gateway_mcp_server.dispatch up server action params
     = gateway_mcp_server._call_tool up server action (default ∅ params))
  ∧ (∀ server, action = u "list" →
     gateway.dispatch up server action params = gateway._list_tools up server)
  ∧ (∀ server, action ≠ u "list" →
     gateway.dispatch up server action params
     = gateway._call_tool up server action (default ∅ params))
  ∧ (∀ server,
     gateway_mcp_server.dispatch up server action None
     = gateway_mcp_server.dispatch up server action (Some ∅))
  ∧ (∀ server,
     gateway.dispatch up server action None
     = gateway.dispatch up server action (Some ∅)).
Proof.
  unfold gateway_mcp_server.dispatch, gateway_mcp_server._handle_dispatch,
    gateway.dispatch, gateway._handle_dispatch.
  split_and!; intros server; try done; intros H; by case_decide.
Qed.

Lemma dispatch_routes_witness :
  gateway_mcp_server.dispatch Fixtures.up Fixtures.fs (u "list") None
  = gateway_mcp_server._list_tools Fixtures.up Fixtures.fs
  ∧ gateway_mcp_server.dispatch Fixtures.up Fixtures.fs (u "List") None
    = gateway_mcp_server._call_tool Fixtures.up Fixtures.fs (u "List") ∅
  ∧ gateway.dispatch Fixtures.up Fixtures.fs' (u "list") None
    = gateway._list_tools Fixtures.up Fixtures.fs'
  ∧ gateway.dispatch Fixtures.up Fixtures.fs' (u " list") None
    = gateway._call_tool Fixtures.up Fixtures.fs' (u " list") ∅.
Proof.
  destruct (dispatch_routes Fixtures.up (u "list") None)
    as (Hlist & _ & Hlist' & _).
  destruct (dispatch_routes Fixtures.up (u "List") None) as (_ & Hcall & _).
  destruct (dispatch_routes Fixtures.up (u " list") None)
    as (_ & _ & _ & Hcall' & _).
  split_and!.
  - apply Hlist. reflexivity.
  - apply Hcall. vm_compute. discriminate.
  - apply Hlist'. reflexivity.
  - apply Hcall'. vm_compute. discriminate.
Defined.

(** C10. The [list] action does not look at its params: from the same
    process and against the same upstream, any two params maps give the same
    response and the same process afterwards. Both source files agree. *)
Theorem list_ignores_params (up : Upstream) (p1 p2 : Params) :
  (∀ server w,
     gateway_mcp_server._handle_dispatch up server (u "list") p1 w
     = gateway_mcp_server._handle_dispatch up server (u "list") p2 w)
  ∧ (∀ server w,
     gateway._handle_dispatch up server (u "list") p1 w
     = gateway._handle_dispatch up server (u "list") p2 w)
  ∧ (∀ server w,
     gateway_mcp_server.dispatch up server (u "list") (Some p1) w
     = gateway_mcp_server.dispatch up server (u "list") None w)
  ∧ (∀ server w,
     gateway.dispatch up server (u "list") (Some p1) w
     = gateway.dispatch up server (u "list") None w).
Proof. by split_and!. Qed.

(** ** Startup discovery *)

Section Discovery.

Import gateway_mcp_server.

Lemma short_form_truncates (t : Tool) :
  ∃ desc, short_form t = tool_name t ++ u ": " ++ desc
    ∧ (80 < length (first_line t) →
       desc = take 77 (first_line t) ++ u "..." ∧ length desc = 80)
    ∧ (length (first_line t) ≤ 80 → desc = first_line t)
    ∧ length desc ≤ 80.
Proof.
  unfold short_form.
  destruct (80 <? length (first_line t)) eqn:E.
  - apply Nat.ltb_lt in E. eexists. split; [done|].
    assert (length (take 77 (first_line t) ++ u "...") = 80) as Hlen.
    { rewrite length_app, length_take. change (length (u "...")) with 3. lia. }
    split_and!; [done|lia|lia].
  - apply Nat.ltb_ge in E. eexists. split; [done|].
    split_and!; [lia|done|lia].
Qed.

Lemma first_line_is_first_line (t : Tool) :
  ∃ rest, strip (or_else (tool_description t) (u "无描述"))
          = first_line t ++ rest
    ∧ (10%N ∉ first_line t)
    ∧ (rest = [] ∨ ∃ rest', rest = 10%N :: rest').
Proof. apply first_field_prefix. Qed.

Lemma long_form_length (t : Tool) :
  length (long_form t)
  = length (tool_name t) + 2
    + length (or_else (tool_description t) (u "无描述")).
Proof.
  unfold long_form. rewrite !length_app. change (length (u ": ")) with 2. lia.
Qed.

Lemma fetch_tools_clean (up : Upstream) (server : ServerConfig) (w : Process)
    (tools : list Tool) :
  list_tools up (journal w) (client_config server) = Clean tools →
  _fetch_tools_dynamic up server w
  = (Returned (map short_form tools),
     cache_store (name server) (map long_form tools)
       {| self := self w;
          journal := journal w ++ [ListTools (client_config server)] |}).
Proof. intros H. unfold _fetch_tools_dynamic, scoped. by rewrite H. Qed.

(** C4. When startup discovery enumerates the operations [tools], the config
    gets one short-form entry per operation, [name: desc], where [desc] is
    the first line of the stripped upstream description (or of the default
    text) cut to its first 77 characters plus ["..."] exactly when that line
    is longer than 80 characters; the tool cache gets one long-form entry per
    operation holding the whole description (or the default text). *)
Theorem discovery_truncates_short_form_only (up : Upstream)
    (server : ServerConfig) (w : Process) (tools : list Tool) :
  list_tools up (journal w) (client_config server) = Clean tools →
  ∃ w' w'',
    _fetch_tools_dynamic up server w = (Returned (map short_form tools), w')
    ∧ add_server up server w = (Returned tt, w'')
    ∧ servers (self w'') !! name server
      = Some (set_tools server (map short_form tools))
    ∧ _tools_cache (self w') !! name server = Some (map long_form tools)
    ∧ _tools_cache (self w'') !! name server = Some (map long_form tools)
    ∧ ∀ t, t ∈ tools →
        (∃ desc, short_form t = tool_name t ++ u ": " ++ desc
           ∧ (80 < length (first_line t) →
              desc = take 77 (first_line t) ++ u "..." ∧ length desc = 80)
           ∧ (length (first_line t) ≤ 80 → desc = first_line t))
        ∧ (∃ rest, strip (or_else (tool_description t) (u "无描述"))
                   = first_line t ++ rest
             ∧ (10%N ∉ first_line t)
             ∧ (rest = [] ∨ ∃ rest', rest = 10%N :: rest'))
        ∧ long_form t
          = tool_name t ++ u ": " ++ or_else (tool_description t) (u "无描述")
        ∧ length (long_form t)
          = length (tool_name t) + 2
            + length (or_else (tool_description t) (u "无描述")).
Proof.
  intros Hclean. do 2 eexists.
  split; [by apply fetch_tools_clean|].
  split; [unfold add_server; by rewrite (fetch_tools_clean _ _ _ _ Hclean)|].
  split_and!.
  - simpl. apply lookup_insert_eq.
  - simpl. apply lookup_insert_eq.
  - simpl. apply lookup_insert_eq.
  - intros t _. split_and!.
    + destruct (short_form_truncates t) as (desc & ? & ? & ? & _).
      by exists desc.
    + apply first_line_is_first_line.
    + done.
    + apply long_form_length.
Qed.

Lemma discovery_truncates_short_form_only_witness :
  list_tools Fixtures.up_wordy (journal Fixtures.fresh)
    (client_config Fixtures.fs) = Clean [Fixtures.wordy]
  ∧ short_form Fixtures.wordy = u "grep: " ++ replicate 77 120%N ++ u "..."
  ∧ ∃ w'',
      add_server Fixtures.up_wordy Fixtures.fs Fixtures.fresh
      = (Returned tt, w'')
      ∧ _tools_cache (self w'') !! u "fs"
        = Some [u "grep: " ++ replicate 100 120%N ++ nl ++ u "more"].
Proof.
  split; [reflexivity|].
  destruct (discovery_truncates_short_form_only Fixtures.up_wordy Fixtures.fs
              Fixtures.fresh [Fixtures.wordy] eq_refl)
    as (w' & w'' & _ & Ha & _ & _ & Hc & Ht).
  split.
  - destruct (Ht Fixtures.wordy) as ((desc & -> & Hlong & _) & _).
    { apply list_elem_of_here. }
    destruct Hlong as [-> _]; [vm_compute; lia|reflexivity].
  - exists w''. split; [exact Ha|exact Hc].
Defined.

End Discovery.

(** ** Description synthesis *)

Section Description.

Import gateway_mcp_server.

Lemma take_min_length {A} (l : list A) n : take (min (length l) n) l = take n l.
Proof.
  destruct (decide (length l ≤ n)).
  - rewrite Nat.min_l by done. by rewrite !take_ge by lia.
  - by rewrite Nat.min_r by lia.
Qed.

Lemma build_description_preview (server : ServerConfig) :
  tools server ≠ [] →
  _build_description server
  = base_desc server ++ nl ++ nl ++ preview_block (tools server).
Proof.
  unfold _build_description, preview_block. intros Hne.
  destruct (tools server) as [|t ts] eqn:E; [done|].
  rewrite take_min_length.
  destruct (30 <? length (t :: ts)) eqn:Hlt.
  - apply Nat.ltb_lt in Hlt. rewrite decide_True by done.
    reflexivity.
  - apply Nat.ltb_ge in Hlt. rewrite decide_False by lia.
    reflexivity.
Qed.

(** C5. The description is the fixed text alone exactly when the config has
    no short-form entries. Otherwise the preview block follows it: the first
    [min total 30] entries, each as a line [- entry], and after them the
    remainder line with the count [total - 30] exactly when [total > 30]. *)
Theorem description_preview_is_capped (server : ServerConfig) :
  (tools server = [] ↔ _build_description server = base_desc server)
  ∧ (tools server ≠ [] →
     let total := length (tools server) in
     let shown := take (min total 30) (tools server) in
     _build_description server
     = base_desc server ++ nl ++ nl
       ++ u "**可用工具列表** (部分):" ++ nl
       ++ join nl (map (fun t => u "- " ++ t) shown)
       ++ (if decide (30 < total)
           then nl ++ u "... (还有 " ++ str_of_nat (total - 30)
                ++ u " 个工具，请使用 list 查看完整列表)"
           else [])
     ∧ length shown = min total 30
     ∧ ∀ i t, i < 30 → tools server !! i = Some t →
         map (fun t => u "- " ++ t) shown !! i = Some (u "- " ++ t)).
Proof.
  split.
  - split.
    + unfold _build_description. intros ->. reflexivity.
    + intros Heq. destruct (tools server) as [|t ts] eqn:E; [done|].
      rewrite build_description_preview in Heq by (rewrite E; done).
      apply (f_equal length) in Heq. rewrite !length_app in Heq.
      change (length nl) with 1 in Heq. lia.
  - intros Hne total shown. split_and!.
    + rewrite (build_description_preview _ Hne). reflexivity.
    + unfold shown, total. rewrite length_take. lia.
    + intros i t Hi Ht. rewrite list_lookup_fmap.
      unfold shown, total. rewrite take_min_length.
      by rewrite lookup_take_lt, Ht by done.
Qed.

Lemma description_preview_is_capped_witness :
  tools Fixtures.fs31 ≠ []
  ∧ _build_description Fixtures.fs31
    = base_desc Fixtures.fs31 ++ nl ++ nl
      ++ u "**可用工具列表** (部分):" ++ nl
      ++ join nl (replicate 30 (u "- a: b"))
      ++ nl ++ u "... (还有 1 个工具，请使用 list 查看完整列表)".
Proof.
  assert (tools Fixtures.fs31 ≠ []) as Hne by (vm_compute; discriminate).
  split; [exact Hne|].
  destruct (description_preview_is_capped Fixtures.fs31) as (_ & H).
  destruct (H Hne) as (Heq & _). rewrite Heq. vm_compute. reflexivity.
Defined.

End Description.

(** ** The handlers, case by case *)

Module ServerHandlers.

Import gateway_mcp_server.

Lemma server_list_hit up server (w : Process) ts :
  _tools_cache (self w) !! name server = Some ts →
  _list_tools up server w = (Returned (list_response server ts), w).
Proof. intros H. unfold _list_tools. by rewrite H. Qed.

Lemma server_list_miss up server (w : Process) :
  _tools_cache (self w) !! name server = None →
  _list_tools up server w =
  let w1 := connected w (ListTools (client_config server)) in
  match list_tools up (journal w) (client_config server) with
  | EnterRaises e | CallRaises e => (Returned (list_failure e), w1)
  | ExitRaises tools e =>
    (Returned (list_failure e),
     cache_store (name server) (map long_form tools) w1)
  | Clean tools =>
    (Returned (list_response server (map long_form tools)),
     cache_store (name server) (map long_form tools) w1)
  end.
Proof.
  intros H. unfold _list_tools, scoped. rewrite H.
  destruct (list_tools up (journal w) (client_config server)) as [e|e|r e|r];
    [reflexivity..|].
  cbn [cache_store self _tools_cache fst snd].
  rewrite lookup_insert_eq. reflexivity.
Qed.

Lemma server_call_cases up server action params (w : Process) :
  _call_tool up server action params w =
  let w1 := connected w (CallTool (client_config server) action params) in
  match call_tool up (journal w) (client_config server) action params with
  | EnterRaises e | CallRaises e | ExitRaises _ e =>
    (Returned (call_failure (name server) action e), w1)
  | Clean result => (Returned (_extract_content result), w1)
  end.
Proof.
  unfold _call_tool, try_except, scoped.
  by destruct (call_tool up (journal w) (client_config server) action params).
Qed.

End ServerHandlers.

Module GatewayHandlers.

Import gateway.

Lemma gateway_list_hit up server (w : Process) ts :
  _tools_cache (self w) !! name server = Some ts →
  _list_tools up server w = (Returned (list_response server ts), w).
Proof. intros H. unfold _list_tools. by rewrite !H. Qed.

Lemma gateway_list_miss up server (w : Process) :
  _tools_cache (self w) !! name server = None →
  _list_tools up server w =
  let w1 := connected w (ListTools (client_config server)) in
  match list_tools up (journal w) (client_config server) with
  | EnterRaises e | CallRaises e => (Returned (list_failure e), w1)
  | ExitRaises tools e =>
    (Returned (list_failure e),
     cache_store (name server) (map long_form tools) w1)
  | Clean tools =>
    (Returned (list_response server (map long_form tools)),
     cache_store (name server) (map long_form tools) w1)
  end.
Proof.
  intros H. unfold _list_tools, scoped. rewrite H.
  destruct (list_tools up (journal w) (client_config server)) as [e|e|r e|r];
    [reflexivity..|].
  cbn [cache_store self _tools_cache fst snd].
  rewrite lookup_insert_eq. reflexivity.
Qed.

Lemma gateway_call_cases up server action params (w : Process) :
  _call_tool up server action params w =
  let w1 := connected w (CallTool (client_config server) action params) in
  match call_tool up (journal w) (client_config server) action params with
  | EnterRaises e | CallRaises e | ExitRaises _ e =>
    (Returned (call_failure (name server) action e), w1)
  | Clean result => (Returned (_extract_content result), w1)
  end.
Proof.
  unfold _call_tool, try_except, scoped.
  by destruct (call_tool up (journal w) (client_config server) action params).
Qed.

End GatewayHandlers.

(** ** Failures at the routed entry point *)

Lemma marker_split :
  u "❌ [" = u "❌" ++ u " ["
  ∧ u "❌ 无法获取工具列表: " = u "❌" ++ u " 无法获取工具列表: ".
Proof. split; vm_compute; reflexivity. Qed.

Lemma list_failure_marked (msg : str) :
  startswith (u "❌") (u "❌ 无法获取工具列表: " ++ msg) = true
  ∧ contains msg (u "❌ 无法获取工具列表: " ++ msg) = true.
Proof.
  split.
  - destruct marker_split as [_ ->]. rewrite <- app_assoc.
    apply startswith_app.
  - apply contains_end.
Qed.

Lemma call_failure_marked (nm action msg : str) :
  let s := u "❌ [" ++ nm ++ u "] 调用 `" ++ action ++ u "` 失败: " ++ msg in
  startswith (u "❌") s = true
  ∧ contains nm s = true
  ∧ contains action s = true
  ∧ contains msg s = true.
Proof.
  intros s. unfold s. split_and!.
  - destruct marker_split as [-> _]. rewrite <- app_assoc.
    apply startswith_app.
  - apply contains_app.
  - rewrite (app_assoc (u "❌ [")), (app_assoc _ (u "] 调用 `")).
    apply contains_app.
  - rewrite (app_assoc (u "❌ [")), (app_assoc _ (u "] 调用 `")),
      (app_assoc _ action), (app_assoc _ (u "` 失败: ")).
    apply contains_end.
Qed.

Lemma server_dispatch_returns up server action params
    (w : gateway_mcp_server.Process) :
  ∃ s w', gateway_mcp_server.dispatch up server action params w
          = (Returned s, w').
Proof.
  unfold gateway_mcp_server.dispatch, gateway_mcp_server._handle_dispatch.
  case_decide.
  - destruct (gateway_mcp_server._tools_cache (self w)
              !! gateway_mcp_server.name server) as [ts|] eqn:E.
    + rewrite (ServerHandlers.server_list_hit _ _ _ _ E). by do 2 eexists.
    + rewrite (ServerHandlers.server_list_miss _ _ _ E). cbv zeta.
      destruct (list_tools up _ _); by do 2 eexists.
  - rewrite ServerHandlers.server_call_cases. cbv zeta.
    destruct (call_tool up _ _ _ _); by do 2 eexists.
Qed.

Lemma gateway_dispatch_returns up server action params
    (w : gateway.Process) :
  ∃ s w', gateway.dispatch up server action params w = (Returned s, w').
Proof.
  unfold gateway.dispatch, gateway._handle_dispatch.
  case_decide.
  - destruct (gateway._tools_cache (self w) !! gateway.name server)
      as [ts|] eqn:E.
    + rewrite (GatewayHandlers.gateway_list_hit _ _ _ _ E). by do 2 eexists.
    + rewrite (GatewayHandlers.gateway_list_miss _ _ _ E). cbv zeta.
      destruct (list_tools up _ _); by do 2 eexists.
  - rewrite GatewayHandlers.gateway_call_cases. cbv zeta.
    destruct (call_tool up _ _ _ _); by do 2 eexists.
Qed.

Lemma server_list_failure up server params (w : gateway_mcp_server.Process) e :
  gateway_mcp_server._tools_cache (self w) !! gateway_mcp_server.name server
  = None →
  session_error (list_tools up (journal w)
                   (gateway_mcp_server.client_config server)) = Some e →
  fst (gateway_mcp_server.dispatch up server (u "list") params w)
  = Returned (u "❌ 无法获取工具列表: " ++ message e).
Proof.
  intros Hmiss He.
  unfold gateway_mcp_server.dispatch, gateway_mcp_server._handle_dispatch.
  rewrite decide_True by reflexivity.
  rewrite (ServerHandlers.server_list_miss _ _ _ Hmiss). cbv zeta.
  destruct (list_tools up _ _); simpl in He; by simplify_eq.
Qed.

Lemma gateway_list_failure up server params (w : gateway.Process) e :
  gateway._tools_cache (self w) !! gateway.name server = None →
  session_error (list_tools up (journal w) (gateway.client_config server))
  = Some e →
  fst (gateway.dispatch up server (u "list") params w)
  = Returned (u "❌ 无法获取工具列表: " ++ message e).
Proof.
  intros Hmiss He. unfold gateway.dispatch, gateway._handle_dispatch.
  rewrite decide_True by reflexivity.
  rewrite (GatewayHandlers.gateway_list_miss _ _ _ Hmiss). cbv zeta.
  destruct (list_tools up _ _); simpl in He; by simplify_eq.
Qed.

Lemma server_call_failure up server action params
    (w : gateway_mcp_server.Process) e :
  action ≠ u "list" →
  session_error (call_tool up (journal w)
                   (gateway_mcp_server.client_config server) action
                   (default ∅ params)) = Some e →
  fst (gateway_mcp_server.dispatch up server action params w)
  = Returned (u "❌ [" ++ gateway_mcp_server.name server ++ u "] 调用 `"
              ++ action ++ u "` 失败: " ++ message e).
Proof.
  intros Hne He.
  unfold gateway_mcp_server.dispatch, gateway_mcp_server._handle_dispatch.
  rewrite decide_False by done.
  rewrite ServerHandlers.server_call_cases. cbv zeta.
  destruct (call_tool up _ _ _ _); simpl in He; by simplify_eq.
Qed.

Lemma gateway_call_failure up server action params (w : gateway.Process) e :
  action ≠ u "list" →
  session_error (call_tool up (journal w) (gateway.client_config server)
                   action (default ∅ params)) = Some e →
  fst (gateway.dispatch up server action params w)
  = Returned (u "❌ [" ++ gateway.name server ++ u "] 调用 `"
              ++ action ++ u "` 失败: " ++ message e).
Proof.
  intros Hne He. unfold gateway.dispatch, gateway._handle_dispatch.
  rewrite decide_False by done.
  rewrite GatewayHandlers.gateway_call_cases. cbv zeta.
  destruct (call_tool up _ _ _ _); simpl in He; by simplify_eq.
Qed.

(** C1, as the code has it. The routed entry point always returns a string
    and never raises, whatever the upstream does. When the session of a
    cache-miss [list] fails, the string is the marker ["❌"], the fixed text
    and the failure's message; the subsystem name is not part of it. When the
    session of an invoke fails, the string carries the marker, the subsystem
    name, the attempted action and the failure's message. Both source files
    agree. *)
Theorem failures_become_marked_strings (up : Upstream) (action : str)
    (params : option Params) :
  (∀ server w, ∃ s w',
     gateway_mcp_server.dispatch up server action params w = (Returned s, w'))
  ∧ (∀ server w, ∃ s w',
     gateway.dispatch up server action params w = (Returned s, w'))
  ∧ (∀ server (w : gateway_mcp_server.Process) e,
     action = u "list" →
     gateway_mcp_server._tools_cache (self w)
       !! gateway_mcp_server.name server = None →
     session_error (list_tools up (journal w)
                      (gateway_mcp_server.client_config server)) = Some e →
     let s := u "❌ 无法获取工具列表: " ++ message e in
     fst (gateway_mcp_server.dispatch up server action params w) = Returned s
     ∧ startswith (u "❌") s = true ∧ contains (message e) s = true)
  ∧ (∀ server (w : gateway.Process) e,
     action = u "list" →
     gateway._tools_cache (self w) !! gateway.name server = None →
     session_error (list_tools up (journal w)
                      (gateway.client_config server)) = Some e →
     let s := u "❌ 无法获取工具列表: " ++ message e in
     fst (gateway.dispatch up server action params w) = Returned s
     ∧ startswith (u "❌") s = true ∧ contains (message e) s = true)
  ∧ (∀ server (w : gateway_mcp_server.Process) e,
     action ≠ u "list" →
     session_error (call_tool up (journal w)
                      (gateway_mcp_server.client_config server) action
                      (default ∅ params)) = Some e →
     let s := u "❌ [" ++ gateway_mcp_server.name server ++ u "] 调用 `"
              ++ action ++ u "` 失败: " ++ message e in
     fst (gateway_mcp_server.dispatch up server action params w) = Returned s
     ∧ startswith (u "❌") s = true
     ∧ contains (gateway_mcp_server.name server) s = true
     ∧ contains action s = true
     ∧ contains (message e) s = true)
  ∧ (∀ server (w : gateway.Process) e,
     action ≠ u "list" →
     session_error (call_tool up (journal w) (gateway.client_config server)
                      action (default ∅ params)) = Some e →
     let s := u "❌ [" ++ gateway.name server ++ u "] 调用 `"
              ++ action ++ u "` 失败: " ++ message e in
     fst (gateway.dispatch up server action params w) = Returned s
     ∧ startswith (u "❌") s = true
     ∧ contains (gateway.name server) s = true
     ∧ contains action s = true
     ∧ contains (message e) s = true).
Proof.
  split_and!.
  - intros. apply server_dispatch_returns.
  - intros. apply gateway_dispatch_returns.
  - intros server w e -> Hmiss He s. split.
    + by apply server_list_failure.
    + apply list_failure_marked.
  - intros server w e -> Hmiss He s. split.
    + by apply gateway_list_failure.
    + apply list_failure_marked.
  - intros server w e Hne He s. split.
    + by apply server_call_failure.
    + apply call_failure_marked.
  - intros server w e Hne He s. split.
    + by apply gateway_call_failure.
    + apply call_failure_marked.
Qed.

Lemma failures_become_marked_strings_witness :
  fst (gateway_mcp_server.dispatch Fixtures.down Fixtures.fs (u "list") None
         Fixtures.fresh)
  = Returned (u "❌ 无法获取工具列表: boom")
  ∧ fst (gateway_mcp_server.dispatch Fixtures.down Fixtures.fs (u "stat") None
           Fixtures.fresh)
    = Returned (u "❌ [fs] 调用 `stat` 失败: boom")
  ∧ fst (gateway.dispatch Fixtures.down Fixtures.fs' (u "list") None
           Fixtures.fresh')
    = Returned (u "❌ 无法获取工具列表: boom")
  ∧ fst (gateway.dispatch Fixtures.down Fixtures.fs' (u "stat") None
           Fixtures.fresh')
    = Returned (u "❌ [fs] 调用 `stat` 失败: boom").
Proof.
  destruct (failures_become_marked_strings Fixtures.down (u "list") None)
    as (_ & _ & Hl & Hl' & _).
  destruct (failures_become_marked_strings Fixtures.down (u "stat") None)
    as (_ & _ & _ & _ & Hc & Hc').
  split_and!.
  - destruct (Hl Fixtures.fs Fixtures.fresh Fixtures.boom) as [-> _];
      vm_compute; reflexivity.
  - destruct (Hc Fixtures.fs Fixtures.fresh Fixtures.boom) as [-> _];
      [vm_compute; discriminate|vm_compute; reflexivity..].
  - destruct (Hl' Fixtures.fs' Fixtures.fresh' Fixtures.boom) as [-> _];
      vm_compute; reflexivity.
  - destruct (Hc' Fixtures.fs' Fixtures.fresh' Fixtures.boom) as [-> _];
      [vm_compute; discriminate|vm_compute; reflexivity..].
Defined.

(** C1 as stated fails for [list]: the failure string of a refused
    connection carries the marker but not the subsystem name. *)
Lemma list_failure_omits_subsystem_name :
  session_error (list_tools Fixtures.down (journal Fixtures.fresh)
                   (gateway_mcp_server.client_config Fixtures.fs))
  = Some Fixtures.boom
  ∧ gateway_mcp_server.dispatch Fixtures.down Fixtures.fs (u "list") None
      Fixtures.fresh
    = (Returned (u "❌ 无法获取工具列表: boom"),
       {| self := self Fixtures.fresh;
          journal := [ListTools (gateway_mcp_server.client_config
                                   Fixtures.fs)] |})
  ∧ contains (gateway_mcp_server.name Fixtures.fs)
      (u "❌ 无法获取工具列表: boom") = false
  ∧ fst (gateway.dispatch Fixtures.down Fixtures.fs' (u "list") None
           Fixtures.fresh')
    = Returned (u "❌ 无法获取工具列表: boom").
Proof. split_and!; vm_compute; reflexivity. Qed.

(** ** The tool cache over time *)

Lemma discoveries_snoc (j : list Event) (ev : Event) :
  discoveries (j ++ [ev])
  = discoveries j + (if is_discovery ev then 1 else 0).
Proof.
  unfold discoveries. rewrite filter_app, length_app. f_equal.
  destruct ev; reflexivity.
Qed.

Module ServerCache.

Import gateway_mcp_server ServerHandlers.

Lemma server_dispatch_list up server params :
  _handle_dispatch up server (u "list") params = _list_tools up server.
Proof. unfold _handle_dispatch. by rewrite decide_True. Qed.

Lemma server_list_miss_call_error up server (w : Process) e :
  _tools_cache (self w) !! name server = None →
  call_error (list_tools up (journal w) (client_config server)) = Some e →
  _list_tools up server w
  = (Returned (list_failure e), connected w (ListTools (client_config server))).
Proof.
  intros Hmiss He. rewrite (server_list_miss _ _ _ Hmiss). cbv zeta.
  destruct (list_tools up _ _); simpl in He; by simplify_eq.
Qed.

Lemma server_list_miss_block up server (w : Process) :
  _tools_cache (self w) !! name server = None →
  call_error (list_tools up (journal w) (client_config server)) = None →
  ∃ r tools, _list_tools up server w
    = (Returned r, cache_store (name server) (map long_form tools)
                     (connected w (ListTools (client_config server)))).
Proof.
  intros Hmiss He. rewrite (server_list_miss _ _ _ Hmiss). cbv zeta.
  destruct (list_tools up _ _); simpl in He; simplify_eq; by do 2 eexists.
Qed.

Lemma server_dispatch_keeps_entries up server action params (w : Process) k v :
  _tools_cache (self w) !! k = Some v →
  _tools_cache (self (snd (_handle_dispatch up server action params w))) !! k
  = Some v.
Proof.
  intros Hk. unfold _handle_dispatch. case_decide.
  - destruct (_tools_cache (self w) !! name server) as [ts|] eqn:E.
    + by rewrite (server_list_hit _ _ _ _ E).
    + assert (name server ≠ k) as Hne by (intros Heq; rewrite Heq in E; congruence).
      rewrite (server_list_miss _ _ _ E). cbv zeta.
      destruct (list_tools up _ _); cbn [snd cache_store connected self
                                         _tools_cache];
        try exact Hk; by rewrite lookup_insert_ne.
  - rewrite server_call_cases. cbv zeta.
    by destruct (call_tool up _ _ _ _).
Qed.

Lemma server_two_lists up server (w : Process) :
  let w1 := snd (_list_tools up server w) in
  let w2 := snd (_list_tools up server w1) in
  (is_Some (_tools_cache (self w) !! name server)
   ∨ call_error (list_tools up (journal w) (client_config server)) = None →
   w2 = w1 ∧ discoveries (journal w2) ≤ discoveries (journal w) + 1)
  ∧ discoveries (journal w2) ≤ discoveries (journal w) + 2.
Proof.
  intros w1 w2. subst w1 w2.
  destruct (_tools_cache (self w) !! name server) as [ts|] eqn:E.
  - rewrite (server_list_hit _ _ _ _ E). cbn [snd]. rewrite (server_list_hit _ _ _ _ E).
    cbn [snd]. split; [intros _; split; [done|lia]|lia].
  - destruct (call_error (list_tools up (journal w) (client_config server)))
      as [e|] eqn:He.
    + rewrite (server_list_miss_call_error _ _ _ _ E He). cbn [snd].
      split; [intros [[? [=]]|[=]]|].
      rewrite (server_list_miss _ _ (connected w _)) by exact E. cbv zeta.
      cbn [journal connected].
      destruct (list_tools up (journal w ++ _) _);
        cbn [snd journal cache_store connected];
        rewrite !discoveries_snoc; cbn [is_discovery]; lia.
    + destruct (server_list_miss_block _ _ _ E He) as (r & tools & ->). cbn [snd].
      assert (_tools_cache
                (self (cache_store (name server) (map long_form tools)
                         (connected w (ListTools (client_config server)))))
              !! name server = Some (map long_form tools)) as Hhit.
      { cbn [cache_store self _tools_cache]. apply lookup_insert_eq. }
      rewrite (server_list_hit _ _ _ _ Hhit). cbn [snd journal cache_store connected].
      rewrite discoveries_snoc. cbn [is_discovery].
      split; [intros _; split; [done|lia]|lia].
Qed.

End ServerCache.

Module GatewayCache.

Import gateway GatewayHandlers.

Lemma gateway_dispatch_list up server params :
  _handle_dispatch up server (u "list") params = _list_tools up server.
Proof. unfold _handle_dispatch. by rewrite decide_True. Qed.

Lemma gateway_list_miss_call_error up server (w : Process) e :
  _tools_cache (self w) !! name server = None →
  call_error (list_tools up (journal w) (client_config server)) = Some e →
  _list_tools up server w
  = (Returned (list_failure e), connected w (ListTools (client_config server))).
Proof.
  intros Hmiss He. rewrite (gateway_list_miss _ _ _ Hmiss). cbv zeta.
  destruct (list_tools up _ _); simpl in He; by simplify_eq.
Qed.

Lemma gateway_list_miss_block up server (w : Process) :
  _tools_cache (self w) !! name server = None →
  call_error (list_tools up (journal w) (client_config server)) = None →
  ∃ r tools, _list_tools up server w
    = (Returned r, cache_store (name server) (map long_form tools)
                     (connected w (ListTools (client_config server)))).
Proof.
  intros Hmiss He. rewrite (gateway_list_miss _ _ _ Hmiss). cbv zeta.
  destruct (list_tools up _ _); simpl in He; simplify_eq; by do 2 eexists.
Qed.

Lemma gateway_dispatch_keeps_entries up server action params (w : Process) k v :
  _tools_cache (self w) !! k = Some v →
  _tools_cache (self (snd (_handle_dispatch up server action params w))) !! k
  = Some v.
Proof.
  intros Hk. unfold _handle_dispatch. case_decide.
  - destruct (_tools_cache (self w) !! name server) as [ts|] eqn:E.
    + by rewrite (gateway_list_hit _ _ _ _ E).
    + assert (name server ≠ k) as Hne by (intros Heq; rewrite Heq in E; congruence).
      rewrite (gateway_list_miss _ _ _ E). cbv zeta.
      destruct (list_tools up _ _); cbn [snd cache_store connected self
                                         _tools_cache];
        try exact Hk; by rewrite lookup_insert_ne.
  - rewrite gateway_call_cases. cbv zeta.
    by destruct (call_tool up _ _ _ _).
Qed.

Lemma gateway_two_lists up server (w : Process) :
  let w1 := snd (_list_tools up server w) in
  let w2 := snd (_list_tools up server w1) in
  (is_Some (_tools_cache (self w) !! name server)
   ∨ call_error (list_tools up (journal w) (client_config server)) = None →
   w2 = w1 ∧ discoveries (journal w2) ≤ discoveries (journal w) + 1)
  ∧ discoveries (journal w2) ≤ discoveries (journal w) + 2.
Proof.
  intros w1 w2. subst w1 w2.
  destruct (_tools_cache (self w) !! name server) as [ts|] eqn:E.
  - rewrite (gateway_list_hit _ _ _ _ E). cbn [snd]. rewrite (gateway_list_hit _ _ _ _ E).
    cbn [snd]. split; [intros _; split; [done|lia]|lia].
  - destruct (call_error (list_tools up (journal w) (client_config server)))
      as [e|] eqn:He.
    + rewrite (gateway_list_miss_call_error _ _ _ _ E He). cbn [snd].
      split; [intros [[? [=]]|[=]]|].
      rewrite (gateway_list_miss _ _ (connected w _)) by exact E. cbv zeta.
      cbn [journal connected].
      destruct (list_tools up (journal w ++ _) _);
        cbn [snd journal cache_store connected];
        rewrite !discoveries_snoc; cbn [is_discovery]; lia.
    + destruct (gateway_list_miss_block _ _ _ E He) as (r & tools & ->). cbn [snd].
      assert (_tools_cache
                (self (cache_store (name server) (map long_form tools)
                         (connected w (ListTools (client_config server)))))
              !! name server = Some (map long_form tools)) as Hhit.
      { cbn [cache_store self _tools_cache]. apply lookup_insert_eq. }
      rewrite (gateway_list_hit _ _ _ _ Hhit). cbn [snd journal cache_store connected].
      rewrite discoveries_snoc. cbn [is_discovery].
      split; [intros _; split; [done|lia]|lia].
Qed.

End GatewayCache.

Lemma server_two_lists_exact up server (w : gateway_mcp_server.Process) :
  let ev := ListTools (gateway_mcp_server.client_config server) in
  let w1 := snd (gateway_mcp_server._list_tools up server w) in
  let w2 := snd (gateway_mcp_server._list_tools up server w1) in
  (is_Some (gateway_mcp_server._tools_cache (self w)
              !! gateway_mcp_server.name server) →
   journal w2 = journal w)
  ∧ (gateway_mcp_server._tools_cache (self w)
       !! gateway_mcp_server.name server = None →
     call_error (list_tools up (journal w)
                   (gateway_mcp_server.client_config server)) = None →
     journal w2 = journal w ++ [ev])
  ∧ (gateway_mcp_server._tools_cache (self w)
       !! gateway_mcp_server.name server = None →
     is_Some (call_error (list_tools up (journal w)
                            (gateway_mcp_server.client_config server))) →
     journal w2 = journal w ++ [ev; ev]).
Proof.
  intros ev w1 w2. subst ev w1 w2. split_and!.
  - intros [ts Hhit].
    rewrite (ServerHandlers.server_list_hit _ _ _ _ Hhit). cbn [snd].
    by rewrite (ServerHandlers.server_list_hit _ _ _ _ Hhit).
  - intros Hmiss He.
    destruct (ServerCache.server_list_miss_block _ _ _ Hmiss He)
      as (r & tools & ->).
    cbn [snd].
    rewrite (ServerHandlers.server_list_hit _ _ _
               (map gateway_mcp_server.long_form tools)).
    + reflexivity.
    + cbn [gateway_mcp_server.cache_store self
           gateway_mcp_server._tools_cache].
      apply lookup_insert_eq.
  - intros Hmiss [e He].
    rewrite (ServerCache.server_list_miss_call_error _ _ _ _ Hmiss He).
    cbn [snd].
    rewrite (ServerHandlers.server_list_miss _ _ (connected w _))
      by exact Hmiss.
    cbv zeta. cbn [journal connected].
    destruct (list_tools up (journal w ++ _) _); cbn [snd journal
      gateway_mcp_server.cache_store connected];
      by rewrite <- app_assoc.
Qed.

Lemma gateway_two_lists_exact up server (w : gateway.Process) :
  let ev := ListTools (gateway.client_config server) in
  let w1 := snd (gateway._list_tools up server w) in
  let w2 := snd (gateway._list_tools up server w1) in
  (is_Some (gateway._tools_cache (self w) !! gateway.name server) →
   journal w2 = journal w)
  ∧ (gateway._tools_cache (self w) !! gateway.name server = None →
     call_error (list_tools up (journal w) (gateway.client_config server))
     = None →
     journal w2 = journal w ++ [ev])
  ∧ (gateway._tools_cache (self w) !! gateway.name server = None →
     is_Some (call_error (list_tools up (journal w)
                            (gateway.client_config server))) →
     journal w2 = journal w ++ [ev; ev]).
Proof.
  intros ev w1 w2. subst ev w1 w2. split_and!.
  - intros [ts Hhit].
    rewrite (GatewayHandlers.gateway_list_hit _ _ _ _ Hhit). cbn [snd].
    by rewrite (GatewayHandlers.gateway_list_hit _ _ _ _ Hhit).
  - intros Hmiss He.
    destruct (GatewayCache.gateway_list_miss_block _ _ _ Hmiss He)
      as (r & tools & ->).
    cbn [snd].
    rewrite (GatewayHandlers.gateway_list_hit _ _ _
               (map gateway.long_form tools)).
    + reflexivity.
    + cbn [gateway.cache_store self gateway._tools_cache].
      apply lookup_insert_eq.
  - intros Hmiss [e He].
    rewrite (GatewayCache.gateway_list_miss_call_error _ _ _ _ Hmiss He).
    cbn [snd].
    rewrite (GatewayHandlers.gateway_list_miss _ _ (connected w _))
      by exact Hmiss.
    cbv zeta. cbn [journal connected].
    destruct (list_tools up (journal w ++ _) _); cbn [snd journal
      gateway.cache_store connected];
      by rewrite <- app_assoc.
Qed.

Lemma discoveries_list_tools (j : list Event) cfg :
  discoveries (j ++ [ListTools cfg]) = discoveries j + 1
  ∧ discoveries (j ++ [ListTools cfg; ListTools cfg]) = discoveries j + 2.
Proof.
  split.
  - by rewrite discoveries_snoc.
  - change [ListTools cfg; ListTools cfg]
      with ([ListTools cfg] ++ [ListTools cfg]).
    rewrite app_assoc, !discoveries_snoc. cbn [is_discovery]. lia.
Qed.

(** A refused connection on the first [list] makes the second one retry. *)
Lemma second_list_retries_after_failure :
  discoveries (journal Fixtures.fresh) = 0
  ∧ discoveries
      (journal
         (snd (gateway_mcp_server.dispatch Fixtures.down Fixtures.fs
                 (u "list") None
                 (snd (gateway_mcp_server.dispatch Fixtures.down Fixtures.fs
                         (u "list") None Fixtures.fresh))))) = 2
  ∧ discoveries
      (journal
         (snd (gateway.dispatch Fixtures.down Fixtures.fs' (u "list") None
                 (snd (gateway.dispatch Fixtures.down Fixtures.fs'
                         (u "list") None Fixtures.fresh'))))) = 2.
Proof. split_and!; vm_compute; reflexivity. Qed.

(** C6, as the code has it. A [list] dispatch for a subsystem whose name is
    in the tool cache is answered from the cache: no connection is opened and
    the process is unchanged. No dispatch, whatever its action, changes or
    removes an entry the cache holds. Of two consecutive [list] dispatches
    the second opens no connection, and the two make at most one discovery
    call, whenever the cache held the entry or the first one got as far as
    storing it; otherwise the second retries and the two make two. Exactly:
    the two dispatches make no discovery call when the cache held the entry,
    one when it did not and the first session got past the enumerate call,
    and two, the second right after the first, when the connection or the
    enumerate call of the first failed. Both source files agree. *)
Theorem cache_hit_needs_no_discovery (up : Upstream) :
  (∀ server params (w : gateway_mcp_server.Process) ts,
     gateway_mcp_server._tools_cache (self w)
       !! gateway_mcp_server.name server = Some ts →
     gateway_mcp_server._handle_dispatch up server (u "list") params w
     = (Returned (gateway_mcp_server.list_response server ts), w))
  ∧ (∀ server params (w : gateway.Process) ts,
     gateway._tools_cache (self w) !! gateway.name server = Some ts →
     gateway._handle_dispatch up server (u "list") params w
     = (Returned (gateway.list_response server ts), w))
  ∧ (∀ server action params (w : gateway_mcp_server.Process) k v,
     gateway_mcp_server._tools_cache (self w) !! k = Some v →
     gateway_mcp_server._tools_cache
       (self (snd (gateway_mcp_server._handle_dispatch up server action
                     params w))) !! k = Some v)
  ∧ (∀ server action params (w : gateway.Process) k v,
     gateway._tools_cache (self w) !! k = Some v →
     gateway._tools_cache
       (self (snd (gateway._handle_dispatch up server action params w))) !! k
     = Some v)
  ∧ (∀ server p1 p2 (w : gateway_mcp_server.Process),
     let w1 := snd (gateway_mcp_server._handle_dispatch up server (u "list")
                      p1 w) in
     let w2 := snd (gateway_mcp_server._handle_dispatch up server (u "list")
                      p2 w1) in
     (is_Some (gateway_mcp_server._tools_cache (self w)
                 !! gateway_mcp_server.name server)
      ∨ call_error (list_tools up (journal w)
                      (gateway_mcp_server.client_config server)) = None →
      w2 = w1 ∧ discoveries (journal w2) ≤ discoveries (journal w) + 1)
     ∧ discoveries (journal w2) ≤ discoveries (journal w) + 2)
  ∧ (∀ server p1 p2 (w : gateway.Process),
     let w1 := snd (gateway._handle_dispatch up server (u "list") p1 w) in
     let w2 := snd (gateway._handle_dispatch up server (u "list") p2 w1) in
     (is_Some (gateway._tools_cache (self w) !! gateway.name server)
      ∨ call_error (list_tools up (journal w)
                      (gateway.client_config server)) = None →
      w2 = w1 ∧ discoveries (journal w2) ≤ discoveries (journal w) + 1)
     ∧ discoveries (journal w2) ≤ discoveries (journal w) + 2)
  ∧ (∀ server p1 p2 (w : gateway_mcp_server.Process),
     let ev := ListTools (gateway_mcp_server.client_config server) in
     let w1 := snd (gateway_mcp_server._handle_dispatch up server (u "list")
                      p1 w) in
     let w2 := snd (gateway_mcp_server._handle_dispatch up server (u "list")
                      p2 w1) in
     (is_Some (gateway_mcp_server._tools_cache (self w)
                 !! gateway_mcp_server.name server) →
      journal w2 = journal w
      ∧ discoveries (journal w2) = discoveries (journal w))
     ∧ (gateway_mcp_server._tools_cache (self w)
          !! gateway_mcp_server.name server = None →
        call_error (list_tools up (journal w)
                      (gateway_mcp_server.client_config server)) = None →
        journal w2 = journal w ++ [ev]
        ∧ discoveries (journal w2) = discoveries (journal w) + 1)
     ∧ (gateway_mcp_server._tools_cache (self w)
          !! gateway_mcp_server.name server = None →
        is_Some (call_error (list_tools up (journal w)
                               (gateway_mcp_server.client_config server))) →
        journal w2 = journal w ++ [ev; ev]
        ∧ discoveries (journal w2) = discoveries (journal w) + 2))
  ∧ (∀ server p1 p2 (w : gateway.Process),
     let ev := ListTools (gateway.client_config server) in
     let w1 := snd (gateway._handle_dispatch up server (u "list") p1 w) in
     let w2 := snd (gateway._handle_dispatch up server (u "list") p2 w1) in
     (is_Some (gateway._tools_cache (self w) !! gateway.name server) →
      journal w2 = journal w
      ∧ discoveries (journal w2) = discoveries (journal w))
     ∧ (gateway._tools_cache (self w) !! gateway.name server = None →
        call_error (list_tools up (journal w)
                      (gateway.client_config server)) = None →
        journal w2 = journal w ++ [ev]
        ∧ discoveries (journal w2) = discoveries (journal w) + 1)
     ∧ (gateway._tools_cache (self w) !! gateway.name server = None →
        is_Some (call_error (list_tools up (journal w)
                               (gateway.client_config server))) →
        journal w2 = journal w ++ [ev; ev]
        ∧ discoveries (journal w2) = discoveries (journal w) + 2)).
Proof.
  split_and!.
  - intros server params w ts H. rewrite ServerCache.server_dispatch_list.
    by apply ServerHandlers.server_list_hit.
  - intros server params w ts H. rewrite GatewayCache.gateway_dispatch_list.
    by apply GatewayHandlers.gateway_list_hit.
  - intros. by apply ServerCache.server_dispatch_keeps_entries.
  - intros. by apply GatewayCache.gateway_dispatch_keeps_entries.
  - intros server p1 p2 w. rewrite !ServerCache.server_dispatch_list.
    apply ServerCache.server_two_lists.
  - intros server p1 p2 w. rewrite !GatewayCache.gateway_dispatch_list.
    apply GatewayCache.gateway_two_lists.
  - intros server p1 p2 w. rewrite !ServerCache.server_dispatch_list.
    destruct (server_two_lists_exact up server w) as (Hhit & Hone & Htwo).
    cbv zeta in *. split_and!.
    + intros H. rewrite (Hhit H). by split.
    + intros Hm He. rewrite (Hone Hm He).
      split; [done|apply discoveries_list_tools].
    + intros Hm He. rewrite (Htwo Hm He).
      split; [done|apply discoveries_list_tools].
  - intros server p1 p2 w. rewrite !GatewayCache.gateway_dispatch_list.
    destruct (gateway_two_lists_exact up server w) as (Hhit & Hone & Htwo).
    cbv zeta in *. split_and!.
    + intros H. rewrite (Hhit H). by split.
    + intros Hm He. rewrite (Hone Hm He).
      split; [done|apply discoveries_list_tools].
    + intros Hm He. rewrite (Htwo Hm He).
      split; [done|apply discoveries_list_tools].
Qed.

Lemma cache_hit_needs_no_discovery_witness :
  gateway_mcp_server._handle_dispatch Fixtures.up Fixtures.fs (u "list") ∅
    (snd (gateway_mcp_server._handle_dispatch Fixtures.up Fixtures.fs
            (u "list") ∅ Fixtures.fresh))
  = (Returned (gateway_mcp_server.list_response Fixtures.fs
                 (map gateway_mcp_server.long_form
                    [Fixtures.read_file; Fixtures.stat])),
     snd (gateway_mcp_server._handle_dispatch Fixtures.up Fixtures.fs
            (u "list") ∅ Fixtures.fresh))
  ∧ discoveries
      (journal
         (snd (gateway._handle_dispatch Fixtures.up Fixtures.fs' (u "list") ∅
                 (snd (gateway._handle_dispatch Fixtures.up Fixtures.fs'
                         (u "list") ∅ Fixtures.fresh')))))
    ≤ discoveries (journal Fixtures.fresh') + 1
  ∧ gateway_mcp_server._tools_cache
      (self (snd (gateway_mcp_server._handle_dispatch Fixtures.up Fixtures.fs
                    (u "stat") ∅
                    (snd (gateway_mcp_server._handle_dispatch Fixtures.up
                            Fixtures.fs (u "list") ∅ Fixtures.fresh)))))
      !! u "fs"
    = Some (map gateway_mcp_server.long_form
              [Fixtures.read_file; Fixtures.stat])
  ∧ discoveries
      (journal
         (snd (gateway_mcp_server._handle_dispatch Fixtures.down Fixtures.fs
                 (u "list") ∅
                 (snd (gateway_mcp_server._handle_dispatch Fixtures.down
                         Fixtures.fs (u "list") ∅ Fixtures.fresh)))))
    = discoveries (journal Fixtures.fresh) + 2
  ∧ discoveries
      (journal
         (snd (gateway._handle_dispatch Fixtures.up Fixtures.fs' (u "list") ∅
                 (snd (gateway._handle_dispatch Fixtures.up Fixtures.fs'
                         (u "list") ∅ Fixtures.fresh')))))
    = discoveries (journal Fixtures.fresh') + 1.
Proof.
  destruct (cache_hit_needs_no_discovery Fixtures.up)
    as (Hhit & _ & Hkeep & _ & _ & Htwo & _ & Hexact').
  destruct (cache_hit_needs_no_discovery Fixtures.down)
    as (_ & _ & _ & _ & _ & _ & Hexact & _).
  split_and!.
  - apply Hhit. vm_compute. reflexivity.
  - destruct (Htwo Fixtures.fs' ∅ ∅ Fixtures.fresh') as [H _].
    apply H. right. vm_compute. reflexivity.
  - apply Hkeep. vm_compute. reflexivity.
  - destruct (Hexact Fixtures.fs ∅ ∅ Fixtures.fresh) as (_ & _ & H).
    apply H; [vm_compute; reflexivity|]. by exists Fixtures.boom.
  - destruct (Hexact' Fixtures.fs' ∅ ∅ Fixtures.fresh') as (_ & H & _).
    apply H; vm_compute; reflexivity.
Defined.

(** ** Failed enumeration *)

Lemma server_retry_after_failure up server (w : gateway_mcp_server.Process) e :
  gateway_mcp_server._tools_cache (self w) !! gateway_mcp_server.name server
  = None →
  call_error (list_tools up (journal w)
                (gateway_mcp_server.client_config server)) = Some e →
  let ev := ListTools (gateway_mcp_server.client_config server) in
  let w1 := snd (gateway_mcp_server._list_tools up server w) in
  w1 = connected w ev
  ∧ gateway_mcp_server._tools_cache (self w1)
    = gateway_mcp_server._tools_cache (self w)
  ∧ journal (snd (gateway_mcp_server._list_tools up server w1))
    = journal w1 ++ [ev].
Proof.
  intros Hmiss He ev w1. subst w1 ev.
  rewrite (ServerCache.server_list_miss_call_error _ _ _ _ Hmiss He). cbn [snd].
  split_and!; [reflexivity..|].
  rewrite (ServerHandlers.server_list_miss _ _ (connected w _)) by exact Hmiss.
  cbv zeta. cbn [journal connected].
  by destruct (list_tools up (journal w ++ _) _).
Qed.

Lemma gateway_retry_after_failure up server (w : gateway.Process) e :
  gateway._tools_cache (self w) !! gateway.name server = None →
  call_error (list_tools up (journal w) (gateway.client_config server))
  = Some e →
  let ev := ListTools (gateway.client_config server) in
  let w1 := snd (gateway._list_tools up server w) in
  w1 = connected w ev
  ∧ gateway._tools_cache (self w1) = gateway._tools_cache (self w)
  ∧ journal (snd (gateway._list_tools up server w1)) = journal w1 ++ [ev].
Proof.
  intros Hmiss He ev w1. subst w1 ev.
  rewrite (GatewayCache.gateway_list_miss_call_error _ _ _ _ Hmiss He). cbn [snd].
  split_and!; [reflexivity..|].
  rewrite (GatewayHandlers.gateway_list_miss _ _ (connected w _)) by exact Hmiss.
  cbv zeta. cbn [journal connected].
  by destruct (list_tools up (journal w ++ _) _).
Qed.

Lemma add_server_after_failure up server (w : gateway_mcp_server.Process) e :
  call_error (list_tools up (journal w)
                (gateway_mcp_server.client_config server)) = Some e →
  gateway_mcp_server.add_server up server w
  = (Returned tt,
     gateway_mcp_server._register_tool server
       (gateway_mcp_server.servers_store server
          (connected w (ListTools
                          (gateway_mcp_server.client_config server))))).
Proof.
  intros He.
  unfold gateway_mcp_server.add_server,
    gateway_mcp_server._fetch_tools_dynamic, scoped.
  destruct (list_tools up _ _); simpl in He; by simplify_eq.
Qed.

Lemma add_server_after_exit_failure up server
    (w : gateway_mcp_server.Process) tools e :
  list_tools up (journal w) (gateway_mcp_server.client_config server)
  = ExitRaises tools e →
  gateway_mcp_server.add_server up server w
  = (Returned tt,
     gateway_mcp_server._register_tool server
       (gateway_mcp_server.servers_store server
          (gateway_mcp_server.cache_store (gateway_mcp_server.name server)
             (map gateway_mcp_server.long_form tools)
             (connected w (ListTools
                             (gateway_mcp_server.client_config server)))))).
Proof.
  intros He.
  unfold gateway_mcp_server.add_server,
    gateway_mcp_server._fetch_tools_dynamic, scoped.
  by rewrite He.
Qed.

(** C9 as stated fails for startup discovery: when the enumeration succeeds
    and the connection then fails to close, discovery has failed and the
    config keeps its empty short-form list, but the cache entry is
    written. *)
Lemma failed_startup_discovery_can_write_cache :
  session_error (list_tools Fixtures.closing_fails (journal Fixtures.fresh)
                   (gateway_mcp_server.client_config Fixtures.fs))
  = Some Fixtures.boom
  ∧ fst (gateway_mcp_server._fetch_tools_dynamic Fixtures.closing_fails
           Fixtures.fs Fixtures.fresh) = Raised Fixtures.boom
  ∧ gateway_mcp_server.servers
      (self (snd (gateway_mcp_server.add_server Fixtures.closing_fails
                    Fixtures.fs Fixtures.fresh))) !! u "fs"
    = Some Fixtures.fs
  ∧ gateway_mcp_server.tools Fixtures.fs = []
  ∧ gateway_mcp_server._tools_cache (self Fixtures.fresh) !! u "fs" = None
  ∧ gateway_mcp_server._tools_cache
      (self (snd (gateway_mcp_server.add_server Fixtures.closing_fails
                    Fixtures.fs Fixtures.fresh))) !! u "fs"
    = Some [u "stat: 无描述"].
Proof. split_and!; vm_compute; reflexivity. Qed.

(** C9, as the code has it. When the connection or the enumerate call of a
    cache-miss [list] fails, the tool cache is exactly what it was, so the
    name is still absent and the next [list] dispatch opens a connection
    again. When the connection or the enumerate call of startup discovery
    fails, the config is registered as it was given, so a short-form list
    that was empty stays empty and the description has no preview, and the
    tool cache is exactly what it was. Every failed startup discovery leaves
    the config as given; one that fails only when the connection is closed
    has written the cache entry by then, and so has a [list] that fails
    there, after which the next [list] is a cache hit. *)
Theorem failed_enumeration_writes_nothing (up : Upstream) :
  (∀ server params (w : gateway_mcp_server.Process) e,
     gateway_mcp_server._tools_cache (self w)
       !! gateway_mcp_server.name server = None →
     call_error (list_tools up (journal w)
                   (gateway_mcp_server.client_config server)) = Some e →
     let ev := ListTools (gateway_mcp_server.client_config server) in
     let w1 := snd (gateway_mcp_server._handle_dispatch up server (u "list")
                      params w) in
     gateway_mcp_server._tools_cache (self w1)
     = gateway_mcp_server._tools_cache (self w)
     ∧ gateway_mcp_server._tools_cache (self w1)
         !! gateway_mcp_server.name server = None
     ∧ ∀ params',
         journal (snd (gateway_mcp_server._handle_dispatch up server
                         (u "list") params' w1))
         = journal w1 ++ [ev])
  ∧ (∀ server params (w : gateway.Process) e,
     gateway._tools_cache (self w) !! gateway.name server = None →
     call_error (list_tools up (journal w) (gateway.client_config server))
     = Some e →
     let ev := ListTools (gateway.client_config server) in
     let w1 := snd (gateway._handle_dispatch up server (u "list") params w) in
     gateway._tools_cache (self w1) = gateway._tools_cache (self w)
     ∧ gateway._tools_cache (self w1) !! gateway.name server = None
     ∧ ∀ params',
         journal (snd (gateway._handle_dispatch up server (u "list")
                         params' w1))
         = journal w1 ++ [ev])
  ∧ (∀ server (w : gateway_mcp_server.Process) e,
     call_error (list_tools up (journal w)
                   (gateway_mcp_server.client_config server)) = Some e →
     ∃ w1,
       gateway_mcp_server.add_server up server w = (Returned tt, w1)
       ∧ gateway_mcp_server.servers (self w1)
           !! gateway_mcp_server.name server = Some server
       ∧ gateway_mcp_server._tools_cache (self w1)
         = gateway_mcp_server._tools_cache (self w)
       ∧ (gateway_mcp_server.tools server = [] →
          app_tools (gateway_mcp_server.app (self w1))
            !! (u "use_" ++ gateway_mcp_server.name server)
          = Some {| reg_description := gateway_mcp_server.base_desc server;
                    reg_server := server |}))
  ∧ (∀ server (w : gateway_mcp_server.Process) e,
     session_error (list_tools up (journal w)
                      (gateway_mcp_server.client_config server)) = Some e →
     ∃ w1,
       gateway_mcp_server.add_server up server w = (Returned tt, w1)
       ∧ gateway_mcp_server.servers (self w1)
           !! gateway_mcp_server.name server = Some server
       ∧ (gateway_mcp_server.tools server = [] →
          app_tools (gateway_mcp_server.app (self w1))
            !! (u "use_" ++ gateway_mcp_server.name server)
          = Some {| reg_description := gateway_mcp_server.base_desc server;
                    reg_server := server |})
       ∧ (is_Some (call_error
                     (list_tools up (journal w)
                        (gateway_mcp_server.client_config server))) →
          gateway_mcp_server._tools_cache (self w1)
          = gateway_mcp_server._tools_cache (self w))
       ∧ (∀ tools,
            list_tools up (journal w)
              (gateway_mcp_server.client_config server)
            = ExitRaises tools e →
            gateway_mcp_server._tools_cache (self w1)
            = <[gateway_mcp_server.name server
                := map gateway_mcp_server.long_form tools]>
                (gateway_mcp_server._tools_cache (self w))))
  ∧ (∀ server params (w : gateway_mcp_server.Process) tools e,
     gateway_mcp_server._tools_cache (self w)
       !! gateway_mcp_server.name server = None →
     list_tools up (journal w) (gateway_mcp_server.client_config server)
     = ExitRaises tools e →
     let w1 := snd (gateway_mcp_server._handle_dispatch up server (u "list")
                      params w) in
     fst (gateway_mcp_server._handle_dispatch up server (u "list") params w)
     = Returned (list_failure e)
     ∧ gateway_mcp_server._tools_cache (self w1)
         !! gateway_mcp_server.name server
       = Some (map gateway_mcp_server.long_form tools)
     ∧ ∀ params',
         snd (gateway_mcp_server._handle_dispatch up server (u "list")
                params' w1) = w1)
  ∧ (∀ server params (w : gateway.Process) tools e,
     gateway._tools_cache (self w) !! gateway.name server = None →
     list_tools up (journal w) (gateway.client_config server)
     = ExitRaises tools e →
     let w1 := snd (gateway._handle_dispatch up server (u "list") params w) in
     fst (gateway._handle_dispatch up server (u "list") params w)
     = Returned (list_failure e)
     ∧ gateway._tools_cache (self w1) !! gateway.name server
       = Some (map gateway.long_form tools)
     ∧ ∀ params',
         snd (gateway._handle_dispatch up server (u "list") params' w1) = w1).
Proof.
  split_and!.
  - intros server params w e Hmiss He ev w1. subst w1 ev.
    rewrite ServerCache.server_dispatch_list.
    destruct (server_retry_after_failure up server w e Hmiss He)
      as (Hw1 & Hcache & Hretry).
    split_and!.
    + exact Hcache.
    + by rewrite Hcache.
    + intros params'. rewrite ServerCache.server_dispatch_list. exact Hretry.
  - intros server params w e Hmiss He ev w1. subst w1 ev.
    rewrite GatewayCache.gateway_dispatch_list.
    destruct (gateway_retry_after_failure up server w e Hmiss He)
      as (Hw1 & Hcache & Hretry).
    split_and!.
    + exact Hcache.
    + by rewrite Hcache.
    + intros params'. rewrite GatewayCache.gateway_dispatch_list. exact Hretry.
  - intros server w e He. eexists. split; [by apply (add_server_after_failure _ _ _ e)|].
    split_and!.
    + cbn. apply lookup_insert_eq.
    + reflexivity.
    + intros Hnil. cbn. rewrite lookup_insert_eq.
      unfold gateway_mcp_server._build_description. by rewrite Hnil.
  - intros server w e He.
    destruct (list_tools up (journal w)
                (gateway_mcp_server.client_config server))
      as [e0|e0|tools e0|tools] eqn:Hs; cbn [session_error] in He;
      [injection He as ->..|discriminate He].
    + eexists. split.
      { apply (add_server_after_failure _ _ _ e). by rewrite Hs. }
      split_and!.
      * cbn. apply lookup_insert_eq.
      * intros Hnil. cbn. rewrite lookup_insert_eq.
        unfold gateway_mcp_server._build_description. by rewrite Hnil.
      * reflexivity.
      * intros tools [=].
    + eexists. split.
      { apply (add_server_after_failure _ _ _ e). by rewrite Hs. }
      split_and!.
      * cbn. apply lookup_insert_eq.
      * intros Hnil. cbn. rewrite lookup_insert_eq.
        unfold gateway_mcp_server._build_description. by rewrite Hnil.
      * reflexivity.
      * intros tools [=].
    + eexists. split.
      { by apply (add_server_after_exit_failure _ _ _ tools e). }
      split_and!.
      * cbn. apply lookup_insert_eq.
      * intros Hnil. cbn. rewrite lookup_insert_eq.
        unfold gateway_mcp_server._build_description. by rewrite Hnil.
      * cbn [call_error]. by intros [? [=]].
      * intros tools' [= <-]. reflexivity.
  - intros server params w tools e Hmiss Hs w1. subst w1.
    rewrite ServerCache.server_dispatch_list.
    rewrite (ServerHandlers.server_list_miss _ _ _ Hmiss). cbv zeta.
    rewrite Hs. cbn [fst snd].
    assert (gateway_mcp_server._tools_cache
              (self (gateway_mcp_server.cache_store
                       (gateway_mcp_server.name server)
                       (map gateway_mcp_server.long_form tools)
                       (connected w (ListTools
                          (gateway_mcp_server.client_config server)))))
            !! gateway_mcp_server.name server
            = Some (map gateway_mcp_server.long_form tools)) as Hhit.
    { cbn. apply lookup_insert_eq. }
    split_and!; [reflexivity|exact Hhit|].
    intros params'. rewrite ServerCache.server_dispatch_list.
    by rewrite (ServerHandlers.server_list_hit _ _ _ _ Hhit).
  - intros server params w tools e Hmiss Hs w1. subst w1.
    rewrite GatewayCache.gateway_dispatch_list.
    rewrite (GatewayHandlers.gateway_list_miss _ _ _ Hmiss). cbv zeta.
    rewrite Hs. cbn [fst snd].
    assert (gateway._tools_cache
              (self (gateway.cache_store (gateway.name server)
                       (map gateway.long_form tools)
                       (connected w (ListTools
                          (gateway.client_config server)))))
            !! gateway.name server
            = Some (map gateway.long_form tools)) as Hhit.
    { cbn. apply lookup_insert_eq. }
    split_and!; [reflexivity|exact Hhit|].
    intros params'. rewrite GatewayCache.gateway_dispatch_list.
    by rewrite (GatewayHandlers.gateway_list_hit _ _ _ _ Hhit).
Qed.

Lemma failed_enumeration_writes_nothing_witness :
  gateway_mcp_server._tools_cache
    (self (snd (gateway_mcp_server._handle_dispatch Fixtures.down Fixtures.fs
                  (u "list") ∅ Fixtures.fresh)))
  = gateway_mcp_server._tools_cache (self Fixtures.fresh)
  ∧ gateway._tools_cache
      (self (snd (gateway._handle_dispatch Fixtures.down Fixtures.fs'
                    (u "list") ∅ Fixtures.fresh')))
    = gateway._tools_cache (self Fixtures.fresh')
  ∧ (∃ w1,
      gateway_mcp_server.add_server Fixtures.down Fixtures.fs Fixtures.fresh
      = (Returned tt, w1)
      ∧ gateway_mcp_server.servers (self w1) !! u "fs" = Some Fixtures.fs
      ∧ gateway_mcp_server._tools_cache (self w1) = ∅)
  ∧ (∃ w1,
      gateway_mcp_server.add_server Fixtures.closing_fails Fixtures.fs
        Fixtures.fresh = (Returned tt, w1)
      ∧ gateway_mcp_server.servers (self w1) !! u "fs" = Some Fixtures.fs
      ∧ gateway_mcp_server._tools_cache (self w1) !! u "fs"
        = Some [u "stat: 无描述"]).
Proof.
  destruct (failed_enumeration_writes_nothing Fixtures.down)
    as (Hs & Hg & Ha & _).
  destruct (failed_enumeration_writes_nothing Fixtures.closing_fails)
    as (_ & _ & _ & Hany & _).
  split; [|split; [|split]].
  - destruct (Hs Fixtures.fs ∅ Fixtures.fresh Fixtures.boom) as (H & _);
      [vm_compute; reflexivity..|exact H].
  - destruct (Hg Fixtures.fs' ∅ Fixtures.fresh' Fixtures.boom) as (H & _);
      [vm_compute; reflexivity..|exact H].
  - destruct (Ha Fixtures.fs Fixtures.fresh Fixtures.boom)
      as (w1 & Hadd & Hsrv & Hcache & _); [vm_compute; reflexivity|].
    exists w1. split_and!; [exact Hadd|exact Hsrv|exact Hcache].
  - destruct (Hany Fixtures.fs Fixtures.fresh Fixtures.boom)
      as (w1 & Hadd & Hsrv & _ & _ & Hexit); [vm_compute; reflexivity|].
    exists w1. split_and!; [exact Hadd|exact Hsrv|].
    rewrite (Hexit [Fixtures.stat]) by reflexivity.
    vm_compute. reflexivity.
Defined.

(** A failure on leaving the connection comes after the cache write: the
    [list] dispatch reports the failure, startup discovery leaves the config
    as given, and the entries are in the cache all the same. *)
Remark exit_failure_after_cache_write (up : Upstream)
    (server : gateway_mcp_server.ServerConfig)
    (w : gateway_mcp_server.Process) (tools : list Tool) (e : Exception) :
  list_tools up (journal w) (gateway_mcp_server.client_config server)
  = ExitRaises tools e →
  (gateway_mcp_server._tools_cache (self w)
     !! gateway_mcp_server.name server = None →
   ∃ w1, gateway_mcp_server._list_tools up server w
         = (Returned (list_failure e), w1)
     ∧ gateway_mcp_server._tools_cache (self w1)
         !! gateway_mcp_server.name server
       = Some (map gateway_mcp_server.long_form tools))
  ∧ ∃ w1, gateway_mcp_server.add_server up server w = (Returned tt, w1)
      ∧ gateway_mcp_server.servers (self w1)
          !! gateway_mcp_server.name server = Some server
      ∧ gateway_mcp_server._tools_cache (self w1)
          !! gateway_mcp_server.name server
        = Some (map gateway_mcp_server.long_form tools).
Proof.
  intros Hexit. split.
  - intros Hmiss. rewrite (ServerHandlers.server_list_miss _ _ _ Hmiss). cbv zeta.
    rewrite Hexit. eexists. split; [reflexivity|].
    cbn. apply lookup_insert_eq.
  - unfold gateway_mcp_server.add_server,
      gateway_mcp_server._fetch_tools_dynamic, scoped.
    rewrite Hexit. eexists. split; [reflexivity|].
    split; cbn; apply lookup_insert_eq.
Qed.

(** ** The list response *)

Lemma bullet_code_points : bullet = [32%N; 32%N; 8226%N; 32%N].
Proof. vm_compute. reflexivity. Qed.

Lemma bullet_one_line : 10%N ∉ bullet.
Proof.
  rewrite bullet_code_points. intros H.
  repeat (apply elem_of_cons in H as [H|H]; [discriminate H|]).
  by apply elem_of_nil in H.
Qed.

Lemma bulleted_lines_app (x y : str) :
  bulleted_lines (x ++ nl ++ y) = bulleted_lines x + bulleted_lines y.
Proof.
  unfold bulleted_lines, nl. cbn [app].
  by rewrite split_app, filter_app, length_app.
Qed.

Lemma bulleted_lines_entry (t : str) :
  bulleted_lines (bullet ++ t) = S (embedded_bullets t).
Proof.
  unfold bulleted_lines, embedded_bullets.
  rewrite (split_prefix _ _ _ bullet_one_line).
  rewrite filter_cons_True by apply startswith_app. reflexivity.
Qed.

Lemma embedded_bullets_one_line (t : str) : 10%N ∉ t → embedded_bullets t = 0.
Proof. intros H. unfold embedded_bullets. by rewrite split_no_sep. Qed.

Lemma bulleted_lines_empty : bulleted_lines [] = 0.
Proof. vm_compute. reflexivity. Qed.

Lemma bulleted_lines_body (ts : list str) :
  bulleted_lines (join nl (map (fun t => bullet ++ t) ts))
  = length ts + sum_list (map embedded_bullets ts).
Proof.
  induction ts as [|t ts IH]; [apply bulleted_lines_empty|].
  destruct ts as [|t' ts].
  - cbn [map join length sum_list_with id].
    rewrite bulleted_lines_entry. lia.
  - change (map (fun t => bullet ++ t) (t :: t' :: ts))
      with ((bullet ++ t) :: (bullet ++ t') :: map (fun t => bullet ++ t) ts).
    rewrite join_cons2, bulleted_lines_app, bulleted_lines_entry.
    change ((bullet ++ t') :: map (fun t => bullet ++ t) ts)
      with (map (fun t => bullet ++ t) (t' :: ts)).
    rewrite IH. cbn [map length sum_list_with id]. lia.
Qed.

Lemma bulleted_lines_one_line_entries (ts : list str) :
  Forall (fun t => 10%N ∉ t) ts →
  bulleted_lines (join nl (map (fun t => bullet ++ t) ts)) = length ts.
Proof.
  intros H. rewrite bulleted_lines_body.
  assert (sum_list (map embedded_bullets ts) = 0) as ->; [|lia].
  induction H as [|t ts Ht _ IH]; [done|].
  cbn [map sum_list_with id].
  rewrite (embedded_bullets_one_line _ Ht). exact IH.
Qed.

(** C7 as stated fails: the response begins with the package marker, not
    with the subsystem name, and an entry whose description has a bulleted
    line of its own adds a bulleted line that the count does not include. *)
Lemma list_count_differs_from_bulleted_lines :
  fst (gateway_mcp_server.dispatch Fixtures.up Fixtures.fs (u "list") None
         Fixtures.fresh)
  = Returned (u "📦 [fs] 可用工具 (2 个):" ++ nl ++ nl
              ++ u "  • read_file: Read a file." ++ nl
              ++ u "  • path" ++ nl
              ++ u "  • stat: 无描述")
  ∧ bulleted_lines (u "  • read_file: Read a file." ++ nl
                    ++ u "  • path" ++ nl
                    ++ u "  • stat: 无描述") = 3
  ∧ startswith (gateway_mcp_server.name Fixtures.fs)
      (u "📦 [fs] 可用工具 (2 个):" ++ nl ++ nl
       ++ u "  • read_file: Read a file." ++ nl
       ++ u "  • path" ++ nl
       ++ u "  • stat: 无描述") = false.
Proof. split_and!; vm_compute; reflexivity. Qed.

(** C7, as the code has it. A [list] dispatch that finds the subsystem in
    the cache, or that enumerates it without failure, returns the package
    marker and the bracketed subsystem name, the number of cache entries,
    and a body of one bulleted item per entry. The bulleted lines of the body
    are the entries plus the bulleted lines inside multi-line entries, so the
    count is the number of bulleted lines exactly when no entry has a
    bulleted line of its own, in particular when every entry is one line.
    Both source files agree. *)
Theorem list_response_counts_entries (up : Upstream) :
  (∀ server params (w : gateway_mcp_server.Process) ts,
     gateway_mcp_server._tools_cache (self w)
       !! gateway_mcp_server.name server = Some ts
     ∨ (gateway_mcp_server._tools_cache (self w)
          !! gateway_mcp_server.name server = None
        ∧ ∃ tools,
            list_tools up (journal w)
              (gateway_mcp_server.client_config server) = Clean tools
            ∧ ts = map gateway_mcp_server.long_form tools) →
     let body := join nl (map (fun t => u "  • " ++ t) ts) in
     fst (gateway_mcp_server._handle_dispatch up server (u "list") params w)
     = Returned (u "📦 [" ++ gateway_mcp_server.name server
                 ++ u "] 可用工具 (" ++ str_of_nat (length ts) ++ u " 个):"
                 ++ nl ++ nl ++ body)
     ∧ bulleted_lines body = length ts + sum_list (map embedded_bullets ts)
     ∧ (Forall (fun t => 10%N ∉ t) ts → bulleted_lines body = length ts))
  ∧ (∀ server params (w : gateway.Process) ts,
     gateway._tools_cache (self w) !! gateway.name server = Some ts
     ∨ (gateway._tools_cache (self w) !! gateway.name server = None
        ∧ ∃ tools,
            list_tools up (journal w) (gateway.client_config server)
            = Clean tools
            ∧ ts = map gateway.long_form tools) →
     let body := join nl (map (fun t => u "  • " ++ t) ts) in
     fst (gateway._handle_dispatch up server (u "list") params w)
     = Returned (u "📦 [" ++ gateway.name server
                 ++ u "] 可用工具 (" ++ str_of_nat (length ts) ++ u " 个):"
                 ++ nl ++ nl ++ body)
     ∧ bulleted_lines body = length ts + sum_list (map embedded_bullets ts)
     ∧ (Forall (fun t => 10%N ∉ t) ts → bulleted_lines body = length ts)).
Proof.
  split.
  - intros server params w ts Hok body. split_and!.
    + rewrite ServerCache.server_dispatch_list.
      destruct Hok as [Hhit|(Hmiss & tools & Hclean & ->)].
      * by rewrite (ServerHandlers.server_list_hit _ _ _ _ Hhit).
      * rewrite (ServerHandlers.server_list_miss _ _ _ Hmiss). cbv zeta.
        by rewrite Hclean.
    + apply bulleted_lines_body.
    + apply bulleted_lines_one_line_entries.
  - intros server params w ts Hok body. split_and!.
    + rewrite GatewayCache.gateway_dispatch_list.
      destruct Hok as [Hhit|(Hmiss & tools & Hclean & ->)].
      * by rewrite (GatewayHandlers.gateway_list_hit _ _ _ _ Hhit).
      * rewrite (GatewayHandlers.gateway_list_miss _ _ _ Hmiss). cbv zeta.
        by rewrite Hclean.
    + apply bulleted_lines_body.
    + apply bulleted_lines_one_line_entries.
Qed.

Lemma list_response_counts_entries_witness :
  fst (gateway_mcp_server._handle_dispatch Fixtures.flaky Fixtures.fs
         (u "list") ∅
         (snd (gateway_mcp_server._handle_dispatch Fixtures.flaky Fixtures.fs
                 (u "list") ∅ Fixtures.fresh)))
  = Returned (u "📦 [fs] 可用工具 (1 个):" ++ nl ++ nl ++ u "  • stat: 无描述")
  ∧ bulleted_lines (u "  • stat: 无描述") = 1.
Proof.
  destruct (list_response_counts_entries Fixtures.flaky) as [H _].
  destruct (H Fixtures.fs ∅
              (snd (gateway_mcp_server._handle_dispatch Fixtures.flaky
                      Fixtures.fs (u "list") ∅ Fixtures.fresh))
              [u "stat: 无描述"]) as (Hresp & _ & Hcount).
  - right. split; [vm_compute; reflexivity|].
    exists [Fixtures.stat]. split; vm_compute; reflexivity.
  - split.
    + rewrite Hresp. vm_compute. reflexivity.
    + apply Hcount. repeat constructor.
      intros Hin%list_elem_of_In. vm_compute in Hin.
      repeat (destruct Hin as [Hin|Hin]; [discriminate Hin|]). exact Hin.
Defined.

(** ** Registration *)

Lemma add_server_shape up server (w : gateway_mcp_server.Process) :
  ∃ server' w',
    gateway_mcp_server.add_server up server w
    = (Returned tt,
       gateway_mcp_server._register_tool server'
         (gateway_mcp_server.servers_store server' w'))
    ∧ (server' = server
       ∨ ∃ tools, server' = gateway_mcp_server.set_tools server
                              (map gateway_mcp_server.short_form tools))
    ∧ gateway_mcp_server.app (self w') = gateway_mcp_server.app (self w)
    ∧ gateway_mcp_server.servers (self w')
      = gateway_mcp_server.servers (self w).
Proof.
  unfold gateway_mcp_server.add_server,
    gateway_mcp_server._fetch_tools_dynamic, scoped.
  destruct (list_tools up _ _) as [e|e|tools e|tools]; cbn [snd fst].
  - exists server. eexists. split_and!; [reflexivity|by left|done..].
  - exists server. eexists. split_and!; [reflexivity|by left|done..].
  - exists server. eexists. split_and!; [reflexivity|by left|done..].
  - eexists. eexists. split_and!; [reflexivity|right; by eexists|done..].
Qed.

(** C8. Registering a config and then another one under the same name
    raises nothing and leaves one entry for the name in the subsystem map,
    the second config, and one entry point [use_<name>], described from and
    dispatching for the second config; neither map gains a key by the second
    registration. In [gateway_mcp_server.py] the stored second config is the
    given one with its short-form list filled in by discovery, if discovery
    succeeded. *)
Theorem duplicate_name_last_write_wins (up : Upstream) :
  (∀ (s1 s2 : gateway.ServerConfig) (w : gateway.Process),
     gateway.name s1 = gateway.name s2 →
     let w1 := snd (gateway.add_server s1 w) in
     let w2 := snd (gateway.add_server s2 w1) in
     fst (gateway.add_server s1 w) = Returned tt
     ∧ fst (gateway.add_server s2 w1) = Returned tt
     ∧ gateway.servers (self w2) !! gateway.name s2 = Some s2
     ∧ dom (gateway.servers (self w2)) =@{gset str}
       dom (gateway.servers (self w1))
     ∧ app_tools (gateway.app (self w2)) !! (u "use_" ++ gateway.name s2)
       = Some {| reg_description :=
                   gateway._build_description (gateway.name s2);
                 reg_server := s2 |}
     ∧ dom (app_tools (gateway.app (self w2))) =@{gset str}
       dom (app_tools (gateway.app (self w1))))
  ∧ (∀ (s1 s2 : gateway_mcp_server.ServerConfig)
       (w : gateway_mcp_server.Process),
     gateway_mcp_server.name s1 = gateway_mcp_server.name s2 →
     let w1 := snd (gateway_mcp_server.add_server up s1 w) in
     let w2 := snd (gateway_mcp_server.add_server up s2 w1) in
     fst (gateway_mcp_server.add_server up s1 w) = Returned tt
     ∧ fst (gateway_mcp_server.add_server up s2 w1) = Returned tt
     ∧ dom (gateway_mcp_server.servers (self w2)) =@{gset str}
       dom (gateway_mcp_server.servers (self w1))
     ∧ dom (app_tools (gateway_mcp_server.app (self w2))) =@{gset str}
       dom (app_tools (gateway_mcp_server.app (self w1)))
     ∧ ∃ s2',
         (s2' = s2
          ∨ ∃ tools, s2' = gateway_mcp_server.set_tools s2
                             (map gateway_mcp_server.short_form tools))
         ∧ gateway_mcp_server.servers (self w2) !! gateway_mcp_server.name s2
           = Some s2'
         ∧ app_tools (gateway_mcp_server.app (self w2))
             !! (u "use_" ++ gateway_mcp_server.name s2)
           = Some {| reg_description :=
                       gateway_mcp_server._build_description s2';
                     reg_server := s2' |}).
Proof.
  split.
  - intros s1 s2 w Hname w1 w2. subst w1 w2.
    unfold gateway.add_server. cbn. rewrite Hname.
    split_and!; try reflexivity.
    + apply lookup_insert_eq.
    + rewrite !dom_insert_L.
      by rewrite (assoc_L (∪)), (idemp_L (∪)).
    + apply lookup_insert_eq.
    + rewrite !dom_insert_L.
      by rewrite (assoc_L (∪)), (idemp_L (∪)).
  - intros s1 s2 w Hname w1 w2. subst w1 w2.
    destruct (add_server_shape up s1 w) as (s1' & w' & -> & Hs1 & Ha & Hs).
    cbn [snd fst].
    destruct (add_server_shape up s2
                (gateway_mcp_server._register_tool s1'
                   (gateway_mcp_server.servers_store s1' w')))
      as (s2' & w'' & -> & Hs2 & Ha' & Hs').
    cbn [snd fst].
    assert (gateway_mcp_server.name s1' = gateway_mcp_server.name s2') as Hn.
    { destruct Hs1 as [->|[? ->]], Hs2 as [->|[? ->]]; exact Hname. }
    assert (gateway_mcp_server.name s2' = gateway_mcp_server.name s2) as Hn2.
    { by destruct Hs2 as [->|[? ->]]. }
    split_and!; try reflexivity.
    + cbn. rewrite Hs'. cbn. rewrite Hn, !dom_insert_L.
      by rewrite (assoc_L (∪)), (idemp_L (∪)).
    + cbn. rewrite Ha'. cbn. rewrite Hn, !dom_insert_L.
      by rewrite (assoc_L (∪)), (idemp_L (∪)).
    + exists s2'. split_and!; [exact Hs2|..].
      * cbn. rewrite <- Hn2. apply lookup_insert_eq.
      * cbn. rewrite <- Hn2. apply lookup_insert_eq.
Qed.

Lemma duplicate_name_last_write_wins_witness :
  gateway.servers
    (self (snd (gateway.add_server Fixtures.fs2'
                  (snd (gateway.add_server Fixtures.fs' Fixtures.fresh')))))
    !! u "fs" = Some Fixtures.fs2'
  ∧ ∃ s2',
      gateway_mcp_server.servers
        (self (snd (gateway_mcp_server.add_server Fixtures.down Fixtures.fs2
                      (snd (gateway_mcp_server.add_server Fixtures.down
                              Fixtures.fs Fixtures.fresh)))))
        !! u "fs" = Some s2'
      ∧ gateway_mcp_server.command s2' = u "uvx".
Proof.
  destruct (duplicate_name_last_write_wins Fixtures.down) as [Hg Hs].
  split.
  - destruct (Hg Fixtures.fs' Fixtures.fs2' Fixtures.fresh')
      as (_ & _ & H & _); [vm_compute; reflexivity|exact H].
  - destruct (Hs Fixtures.fs Fixtures.fs2 Fixtures.fresh)
      as (_ & _ & _ & _ & s2' & Hs2 & H & _); [vm_compute; reflexivity|].
    exists s2'. split; [exact H|].
    by destruct Hs2 as [->|[? ->]].
Defined.

(** * Further properties of the two files *)

(** ** What one registration does *)

Section RegistrationEffect.

Import gateway_mcp_server.

Lemma entry_point_inj (n n' : str) : entry_point n = entry_point n' → n = n'.
Proof. unfold entry_point. apply app_inv_head. Qed.

Lemma same_launch_refl (s : ServerConfig) : same_launch s s.
Proof. by repeat split. Qed.

Lemma same_launch_set_tools (s : ServerConfig) ts :
  same_launch (set_tools s ts) s.
Proof. by repeat split. Qed.

Lemma same_launch_client_config (s s' : ServerConfig) :
  same_launch s s' → client_config s = client_config s'.
Proof.
  intros (Hn & Hc & Ha & He). unfold client_config.
  by rewrite Hn, Hc, Ha, He.
Qed.

Lemma add_server_effect up server (w : Process) :
  ∃ server' cache',
    add_server up server w
    = (Returned tt,
       {| self :=
            {| app := tool (app (self w)) (entry_point (name server))
                        (_build_description server') server';
               servers := <[name server := server']> (servers (self w));
               _tools_cache := cache' |};
          journal := journal w ++ [ListTools (client_config server)] |})
    ∧ same_launch server' server
    ∧ ((∃ e, call_error (list_tools up (journal w) (client_config server))
             = Some e
           ∧ server' = server ∧ cache' = _tools_cache (self w))
       ∨ (∃ tools e, list_tools up (journal w) (client_config server)
                     = ExitRaises tools e
            ∧ server' = server
            ∧ cache' = <[name server := map long_form tools]>
                         (_tools_cache (self w)))
       ∨ (∃ tools, list_tools up (journal w) (client_config server)
                   = Clean tools
            ∧ server' = set_tools server (map short_form tools)
            ∧ cache' = <[name server := map long_form tools]>
                         (_tools_cache (self w)))).
Proof.
  unfold add_server, _fetch_tools_dynamic, scoped, entry_point.
  destruct (list_tools up _ _) as [e|e|tools e|tools]; cbn [snd fst].
  - exists server, (_tools_cache (self w)).
    split_and!; [reflexivity|apply same_launch_refl|].
    left. by exists e.
  - exists server, (_tools_cache (self w)).
    split_and!; [reflexivity|apply same_launch_refl|].
    left. by exists e.
  - exists server, (<[name server := map long_form tools]>
                      (_tools_cache (self w))).
    split_and!; [reflexivity|apply same_launch_refl|].
    right. left. by exists tools, e.
  - exists (set_tools server (map short_form tools)),
      (<[name server := map long_form tools]> (_tools_cache (self w))).
    split_and!; [reflexivity|apply same_launch_set_tools|].
    right. right. by exists tools.
Qed.

End RegistrationEffect.

(** ** What a dispatch touches *)

Section DispatchFrame.

Import gateway_mcp_server.

Lemma server_dispatch_effect up server action params (w : Process) :
  let w' := snd (_handle_dispatch up server action params w) in
  app (self w') = app (self w)
  ∧ servers (self w') = servers (self w)
  ∧ (action ≠ u "list" →
     journal w'
     = journal w ++ [CallTool (client_config server) action params]
     ∧ _tools_cache (self w') = _tools_cache (self w))
  ∧ (action = u "list" →
     (is_Some (_tools_cache (self w) !! name server) → w' = w)
     ∧ (_tools_cache (self w) !! name server = None →
        journal w' = journal w ++ [ListTools (client_config server)])).
Proof.
  intros w'. subst w'. unfold _handle_dispatch. case_decide as Ha.
  - destruct (_tools_cache (self w) !! name server) as [ts|] eqn:E.
    + rewrite (ServerHandlers.server_list_hit _ _ _ _ E). cbn [snd].
      split_and!; [done..|].
      intros _. split; [done|]. intros [=].
    + rewrite (ServerHandlers.server_list_miss _ _ _ E). cbv zeta.
      destruct (list_tools up _ _); cbn [snd];
        (split_and!; [reflexivity|reflexivity|done|]);
        (intros _; split; [by intros [? [=]]|intros _; reflexivity]).
  - rewrite ServerHandlers.server_call_cases. cbv zeta.
    destruct (call_tool up _ _ _ _); cbn [snd];
      (split_and!; [reflexivity|reflexivity|intros _; by split|done]).
Qed.

End DispatchFrame.

Lemma gateway_dispatch_effect up server action params (w : gateway.Process) :
  let w' := snd (gateway._handle_dispatch up server action params w) in
  gateway.app (self w') = gateway.app (self w)
  ∧ gateway.servers (self w') = gateway.servers (self w)
  ∧ (action ≠ u "list" →
     journal w'
     = journal w ++ [CallTool (gateway.client_config server) action params]
     ∧ gateway._tools_cache (self w') = gateway._tools_cache (self w))
  ∧ (action = u "list" →
     (is_Some (gateway._tools_cache (self w) !! gateway.name server) →
      w' = w)
     ∧ (gateway._tools_cache (self w) !! gateway.name server = None →
        journal w' = journal w ++ [ListTools (gateway.client_config server)])).
Proof.
  intros w'. subst w'. unfold gateway._handle_dispatch. case_decide as Ha.
  - destruct (gateway._tools_cache (self w) !! gateway.name server)
      as [ts|] eqn:E.
    + rewrite (GatewayHandlers.gateway_list_hit _ _ _ _ E). cbn [snd].
      split_and!; [done..|].
      intros _. split; [done|]. intros [=].
    + rewrite (GatewayHandlers.gateway_list_miss _ _ _ E). cbv zeta.
      destruct (list_tools up _ _); cbn [snd];
        (split_and!; [reflexivity|reflexivity|done|]);
        (intros _; split; [by intros [? [=]]|intros _; reflexivity]).
  - rewrite GatewayHandlers.gateway_call_cases. cbv zeta.
    destruct (call_tool up _ _ _ _); cbn [snd];
      (split_and!; [reflexivity|reflexivity|intros _; by split|done]).
Qed.

(** ** Loading a configuration document, step by step *)

Section LoadSteps.

Import gateway_mcp_server.

Lemma add_server_returns up server (w : Process) :
  fst (add_server up server w) = Returned tt.
Proof.
  destruct (add_server_effect up server w) as (s' & c' & -> & _). reflexivity.
Qed.

Lemma load_entries_cons up n cfg rest (w : Process) :
  load_entries up ((n, cfg) :: rest) w
  = match parse_entry n cfg with
    | Raised e => (Raised e, w)
    | Returned server => load_entries up rest (snd (add_server up server w))
    end.
Proof.
  cbn [load_entries]. destruct (parse_entry n cfg) as [server|e]; [|done].
  pose proof (add_server_returns up server w) as Hr.
  destruct (add_server up server w) as [[[]|e] w']; [done|discriminate Hr].
Qed.

Lemma load_entries_preserves (P : Process → Prop) up :
  (∀ server w, P w → P (snd (add_server up server w))) →
  ∀ items w, P w → P (snd (load_entries up items w)).
Proof.
  intros Hadd items. induction items as [|[n cfg] rest IH]; intros w Hw.
  - exact Hw.
  - rewrite load_entries_cons.
    destruct (parse_entry n cfg) as [server|e]; [|exact Hw].
    apply IH, Hadd, Hw.
Qed.

Lemma parse_entry_returns n cfg c :
  entry_command cfg = Some c →
  parse_entry n cfg
  = Returned {| name := n; command := c;
                args := default [] (entry_args cfg);
                env := default ∅ (entry_env cfg); tools := [] |}.
Proof. intros H. unfold parse_entry. by rewrite H. Qed.

End LoadSteps.

Lemma gateway_load_entries_cons n cfg rest (w : gateway.Process) :
  gateway.load_entries ((n, cfg) :: rest) w
  = match gateway.parse_entry n cfg with
    | Raised e => (Raised e, w)
    | Returned server =>
      gateway.load_entries rest (snd (gateway.add_server server w))
    end.
Proof.
  cbn [gateway.load_entries].
  by destruct (gateway.parse_entry n cfg) as [server|e].
Qed.

(** ** The registry and the subsystem map stay in step *)

Section Consistency.

Import gateway_mcp_server.

Lemma consistent_init nm : registry_consistent (__init__ nm).
Proof.
  split.
  - intros n s H. cbn in H. by rewrite lookup_empty in H.
  - intros k r H. cbn in H. by rewrite lookup_empty in H.
Qed.

Lemma consistent_add_server up server (w : Process) :
  registry_consistent (self w) →
  registry_consistent (self (snd (add_server up server w))).
Proof.
  intros [Hs Ht].
  destruct (add_server_effect up server w)
    as (s' & c' & -> & (Hn & _) & _).
  cbn [snd self]. split.
  - intros n s. cbn [servers app tool app_tools].
    destruct (decide (name server = n)) as [<-|Hne].
    + rewrite lookup_insert_eq. intros [= <-].
      split; [exact Hn|]. by rewrite lookup_insert_eq.
    + rewrite lookup_insert_ne by done. intros Hl.
      destruct (Hs n s Hl) as [Hname Hreg]. split; [exact Hname|].
      rewrite lookup_insert_ne; [exact Hreg|].
      intros Heq%entry_point_inj. done.
  - intros k r. cbn [servers app tool app_tools].
    destruct (decide (entry_point (name server) = k)) as [<-|Hne].
    + rewrite lookup_insert_eq. intros [= <-]. cbn [reg_server].
      rewrite Hn. split; [done|]. by rewrite lookup_insert_eq.
    + rewrite lookup_insert_ne by done. intros Hl.
      destruct (Ht k r Hl) as [Hk Hsrv]. split; [exact Hk|].
      rewrite lookup_insert_ne; [exact Hsrv|].
      intros Heq. apply Hne. by rewrite Hk, Heq.
Qed.

(** The subsystem map and the registry agree from construction on: after
    any registration, any load of a configuration document (also one that
    stops at a malformed entry) and any dispatch, every stored config sits
    under its own name with an entry point [use_<name>] that dispatches for
    it and is described from it, and there is no entry point without a
    stored config. *)
Theorem registry_stays_consistent (up : Upstream) :
  (∀ nm, registry_consistent (__init__ nm))
  ∧ (∀ server (w : Process),
       registry_consistent (self w) →
       registry_consistent (self (snd (add_server up server w))))
  ∧ (∀ data (w : Process),
       registry_consistent (self w) →
       registry_consistent (self (snd (load_config up data w))))
  ∧ (∀ server action params (w : Process),
       registry_consistent (self w) →
       registry_consistent
         (self (snd (_handle_dispatch up server action params w)))).
Proof.
  split_and!.
  - apply consistent_init.
  - apply consistent_add_server.
  - intros data w. unfold load_config.
    apply (load_entries_preserves (fun w => registry_consistent (self w))).
    apply consistent_add_server.
  - intros server action params w [Hs Ht].
    destruct (server_dispatch_effect up server action params w)
      as (Ha & Hsrv & _).
    split.
    + intros n s. rewrite Ha, Hsrv. apply Hs.
    + intros k r. rewrite Ha, Hsrv. apply Ht.
Qed.

Lemma registry_stays_consistent_witness :
  registry_consistent
    (self (snd (_handle_dispatch Fixtures.up Fixtures.fs (u "list") ∅
                  (snd (load_config Fixtures.up Fixtures.broken_third
                          Fixtures.fresh))))).
Proof.
  destruct (registry_stays_consistent Fixtures.up)
    as (Hinit & _ & Hload & Hdisp).
  apply Hdisp, Hload. apply (Hinit (u "MCP-Gateway")).
Defined.

End Consistency.

(** ** Loading a whole document *)

Section LoadConfig.

Import gateway_mcp_server.

Implicit Types (items : list (str * Entry)) (w : Process).

Lemma load_entries_app up items rest w :
  Forall (fun item => is_Some (entry_command item.2)) items →
  load_entries up (items ++ rest) w
  = load_entries up rest (snd (load_entries up items w)).
Proof.
  intros Hok. revert w. induction Hok as [|[n cfg] items [c Hc] _ IH]; intros w.
  - reflexivity.
  - rewrite <- app_comm_cons, !load_entries_cons.
    cbn [snd] in Hc. rewrite (parse_entry_returns _ _ _ Hc). apply IH.
Qed.

Lemma load_entries_ok up items w :
  Forall (fun item => is_Some (entry_command item.2)) items →
  fst (load_entries up items w) = Returned tt.
Proof.
  intros Hok. revert w. induction Hok as [|[n cfg] items [c Hc] _ IH]; intros w.
  - reflexivity.
  - rewrite load_entries_cons. cbn [snd] in Hc.
    rewrite (parse_entry_returns _ _ _ Hc). apply IH.
Qed.

Lemma load_entries_other up items w n :
  n ∉ items.*1 →
  servers (self (snd (load_entries up items w))) !! n = servers (self w) !! n
  ∧ app_tools (app (self (snd (load_entries up items w)))) !! entry_point n
    = app_tools (app (self w)) !! entry_point n.
Proof.
  revert w. induction items as [|[n0 cfg] items IH]; intros w Hn.
  - done.
  - rewrite load_entries_cons.
    apply not_elem_of_cons in Hn as [Hne Hn]. cbn [fst] in Hne.
    unfold parse_entry. destruct (entry_command cfg) as [c|]; [|done].
    destruct (IH (snd (add_server up
                         {| name := n0; command := c;
                            args := default [] (entry_args cfg);
                            env := default ∅ (entry_env cfg);
                            tools := [] |} w)) Hn) as [-> ->].
    destruct (add_server_effect up
                {| name := n0; command := c;
                   args := default [] (entry_args cfg);
                   env := default ∅ (entry_env cfg); tools := [] |} w)
      as (s' & c' & -> & _).
    cbn [snd self servers app tool app_tools name].
    rewrite !lookup_insert_ne; [done| |done].
    intros Heq%entry_point_inj. done.
Qed.

Lemma union_shuffle (a X Y : gset str) : a ∪ X ∪ Y = X ∪ (a ∪ Y).
Proof. by rewrite (comm_L (∪) a X), (assoc_L (∪)). Qed.

Lemma load_entries_growth up items w :
  Forall (fun item => is_Some (entry_command item.2)) items →
  let w' := snd (load_entries up items w) in
  dom (servers (self w')) =@{gset str}
    dom (servers (self w)) ∪ list_to_set items.*1
  ∧ dom (app_tools (app (self w'))) =@{gset str}
    dom (app_tools (app (self w)))
    ∪ list_to_set (entry_point <$> items.*1)
  ∧ discoveries (journal w') = discoveries (journal w) + length items
  ∧ length (journal w') = length (journal w) + length items.
Proof.
  intros Hok. revert w.
  induction Hok as [|[n cfg] items [c Hc] _ IH]; intros w w'; subst w'.
  - cbn. rewrite !(right_id_L ∅ (∪)). split_and!; [done|done|lia|lia].
  - rewrite load_entries_cons. cbn [snd] in Hc.
    rewrite (parse_entry_returns _ _ _ Hc).
    destruct (IH (snd (add_server up
                         {| name := n; command := c;
                            args := default [] (entry_args cfg);
                            env := default ∅ (entry_env cfg);
                            tools := [] |} w)))
      as (-> & -> & -> & ->).
    destruct (add_server_effect up
                {| name := n; command := c;
                   args := default [] (entry_args cfg);
                   env := default ∅ (entry_env cfg); tools := [] |} w)
      as (s' & c' & -> & _).
    cbn [snd self servers app tool app_tools name journal fst fmap list_fmap
         list_to_set length].
    rewrite !dom_insert_L, discoveries_snoc, length_app.
    cbn [is_discovery length].
    split_and!; [apply union_shuffle|apply union_shuffle|lia|lia].
Qed.

Lemma load_entries_lookup up items w n cfg :
  Forall (fun item => is_Some (entry_command item.2)) items →
  NoDup items.*1 →
  (n, cfg) ∈ items →
  ∃ stored c,
    entry_command cfg = Some c
    ∧ servers (self (snd (load_entries up items w))) !! n = Some stored
    ∧ same_launch stored {| name := n; command := c;
                            args := default [] (entry_args cfg);
                            env := default ∅ (entry_env cfg); tools := [] |}
    ∧ app_tools (app (self (snd (load_entries up items w)))) !! entry_point n
      = Some {| reg_description := _build_description stored;
                reg_server := stored |}.
Proof.
  intros Hok. revert w.
  induction Hok as [|[n0 cfg0] items [c0 Hc0] Hok IH]; intros w Hnd Hin.
  - by apply elem_of_nil in Hin.
  - cbn [fmap list_fmap fst] in Hnd. apply NoDup_cons in Hnd as [Hfresh Hnd].
    rewrite load_entries_cons. cbn [snd] in Hc0.
    rewrite (parse_entry_returns _ _ _ Hc0).
    apply elem_of_cons in Hin as [[= -> ->]|Hin].
    + destruct (load_entries_other up items
                  (snd (add_server up
                          {| name := n0; command := c0;
                             args := default [] (entry_args cfg0);
                             env := default ∅ (entry_env cfg0);
                             tools := [] |} w)) n0 Hfresh) as [-> ->].
      destruct (add_server_effect up
                  {| name := n0; command := c0;
                     args := default [] (entry_args cfg0);
                     env := default ∅ (entry_env cfg0); tools := [] |} w)
        as (s' & c' & -> & Hlaunch & _).
      cbn [snd self servers app tool app_tools name].
      exists s', c0. rewrite !lookup_insert_eq. by split_and!.
    + by apply IH.
Qed.

Instance entry_point_injective : Inj (=) (=) entry_point.
Proof. intros n n'. apply entry_point_inj. Qed.

(** A document in which every entry has its command and no name occurs
    twice is loaded completely: [load_config] returns, makes at most one
    discovery call per entry, adds exactly the entries' names to the
    subsystem map and the names [use_<name>] to the registry, so that a
    fresh gateway ends with as many subsystems and entry points as the
    document has entries; each stored config has the entry's command, its
    args or [[]], its env or [{}], and an entry point described from and
    dispatching for it. *)
Theorem load_config_registers_each_entry (up : Upstream) items w :
  Forall (fun item => is_Some (entry_command item.2)) items →
  NoDup items.*1 →
  let w' := snd (load_config up {| doc_mcpServers := Some items |} w) in
  fst (load_config up {| doc_mcpServers := Some items |} w) = Returned tt
  ∧ dom (servers (self w')) =@{gset str}
    dom (servers (self w)) ∪ list_to_set items.*1
  ∧ dom (app_tools (app (self w'))) =@{gset str}
    dom (app_tools (app (self w))) ∪ list_to_set (entry_point <$> items.*1)
  ∧ (servers (self w) = ∅ → app_tools (app (self w)) = ∅ →
     size (servers (self w')) = length items
     ∧ size (app_tools (app (self w'))) = length items)
  ∧ discoveries (journal w') ≤ discoveries (journal w) + length items
  ∧ ∀ n cfg, (n, cfg) ∈ items →
      ∃ stored c,
        entry_command cfg = Some c
        ∧ servers (self w') !! n = Some stored
        ∧ same_launch stored {| name := n; command := c;
                                args := default [] (entry_args cfg);
                                env := default ∅ (entry_env cfg);
                                tools := [] |}
        ∧ app_tools (app (self w')) !! entry_point n
          = Some {| reg_description := _build_description stored;
                    reg_server := stored |}.
Proof.
  intros Hok Hnd w'. subst w'. unfold load_config. cbn [default doc_mcpServers from_option id].
  destruct (load_entries_growth up items w Hok) as (Hdom & Hreg & Hdisc & _).
  split_and!.
  - by apply load_entries_ok.
  - exact Hdom.
  - exact Hreg.
  - intros Hs Ht. split.
    + rewrite <- (size_dom (D:=gset str)), Hdom, Hs, dom_empty_L,
        (left_id_L ∅ (∪)).
      rewrite size_list_to_set by done. by rewrite length_fmap.
    + rewrite <- (size_dom (D:=gset str)), Hreg, Ht, dom_empty_L,
        (left_id_L ∅ (∪)).
      rewrite size_list_to_set by (by apply (NoDup_fmap_2 entry_point)).
      by rewrite !length_fmap.
  - rewrite Hdisc. done.
  - intros n cfg Hin. by apply load_entries_lookup.
Qed.

Lemma load_config_registers_each_entry_witness :
  size (servers (self (snd (load_config Fixtures.up Fixtures.two_servers
                              Fixtures.fresh)))) = 2
  ∧ size (app_tools (app (self (snd (load_config Fixtures.up
                                       Fixtures.two_servers
                                       Fixtures.fresh))))) = 2
  ∧ discoveries (journal (snd (load_config Fixtures.up Fixtures.two_servers
                                 Fixtures.fresh))) ≤ 2.
Proof.
  destruct (load_config_registers_each_entry Fixtures.up
              [ (u "fs", {| entry_command := Some (u "npx");
                            entry_args := Some [u "server-filesystem"];
                            entry_env := None |});
                (u "git", {| entry_command := Some (u "uvx");
                             entry_args := None;
                             entry_env := None |}) ]
              Fixtures.fresh)
    as (_ & _ & _ & Hsize & Hdisc & _).
  - repeat constructor; by eexists.
  - apply (bool_decide_unpack _). vm_compute. exact I.
  - destruct Hsize as [Hs Ht]; [reflexivity..|].
    split_and!; [exact Hs|exact Ht|exact Hdisc].
Defined.

(** A missing ["mcpServers"] key is an empty document, and an entry without
    ["command"] stops the load with [KeyError('command')]: the entries before
    it are registered exactly as if the document ended there, and no entry
    after it is looked at. *)
Theorem load_config_stops_at_missing_command (up : Upstream)
    before n cfg after w :
  Forall (fun item => is_Some (entry_command item.2)) before →
  entry_command cfg = None →
  load_config up {| doc_mcpServers := Some (before ++ (n, cfg) :: after) |} w
  = (Raised (KeyError (u "command")),
     snd (load_config up {| doc_mcpServers := Some before |} w))
  ∧ load_config up {| doc_mcpServers := None |} w = (Returned tt, w).
Proof.
  intros Hok Hnone. split; [|reflexivity].
  unfold load_config. cbn [default doc_mcpServers from_option id].
  rewrite (load_entries_app _ _ _ _ Hok), load_entries_cons.
  unfold parse_entry. by rewrite Hnone.
Qed.

Lemma load_config_stops_at_missing_command_witness :
  load_config Fixtures.up Fixtures.broken_third Fixtures.fresh
  = (Raised (KeyError (u "command")),
     snd (load_config Fixtures.up Fixtures.two_servers Fixtures.fresh)).
Proof.
  apply (load_config_stops_at_missing_command Fixtures.up
           [ (u "fs", {| entry_command := Some (u "npx");
                         entry_args := Some [u "server-filesystem"];
                         entry_env := None |});
             (u "git", {| entry_command := Some (u "uvx");
                          entry_args := None;
                          entry_env := None |}) ]
           (u "db")
           {| entry_command := None; entry_args := Some [];
              entry_env := None |}
           [ (u "web", {| entry_command := Some (u "node");
                          entry_args := None;
                          entry_env := None |}) ]
           Fixtures.fresh).
  - repeat constructor; by eexists.
  - reflexivity.
Defined.

End LoadConfig.

Section GatewayLoadConfig.

Implicit Types (items : list (str * Entry)) (w : gateway.Process).

Lemma gateway_parse_entry_returns n cfg c :
  entry_command cfg = Some c →
  gateway.parse_entry n cfg
  = Returned {| gateway.name := n; gateway.command := c;
                gateway.args := default [] (entry_args cfg);
                gateway.env := default ∅ (entry_env cfg) |}.
Proof. intros H. unfold gateway.parse_entry. by rewrite H. Qed.

Lemma gateway_load_entries_offline items w :
  journal (snd (gateway.load_entries items w)) = journal w
  ∧ gateway._tools_cache (self (snd (gateway.load_entries items w)))
    = gateway._tools_cache (self w).
Proof.
  revert w. induction items as [|[n cfg] items IH]; intros w; [done|].
  rewrite gateway_load_entries_cons.
  destruct (gateway.parse_entry n cfg) as [server|e]; [|done].
  destruct (IH (snd (gateway.add_server server w))) as [-> ->]. done.
Qed.

Lemma gateway_load_entries_app items rest w :
  Forall (fun item => is_Some (entry_command item.2)) items →
  gateway.load_entries (items ++ rest) w
  = gateway.load_entries rest (snd (gateway.load_entries items w)).
Proof.
  intros Hok. revert w. induction Hok as [|[n cfg] items [c Hc] _ IH]; intros w.
  - reflexivity.
  - rewrite <- app_comm_cons, !gateway_load_entries_cons.
    cbn [snd] in Hc. rewrite (gateway_parse_entry_returns _ _ _ Hc). apply IH.
Qed.

Lemma gateway_load_entries_other items w n :
  n ∉ items.*1 →
  gateway.servers (self (snd (gateway.load_entries items w))) !! n
  = gateway.servers (self w) !! n
  ∧ app_tools (gateway.app (self (snd (gateway.load_entries items w))))
      !! entry_point n
    = app_tools (gateway.app (self w)) !! entry_point n.
Proof.
  revert w. induction items as [|[n0 cfg] items IH]; intros w Hn; [done|].
  rewrite gateway_load_entries_cons.
  apply not_elem_of_cons in Hn as [Hne Hn]. cbn [fst] in Hne.
  unfold gateway.parse_entry. destruct (entry_command cfg) as [c|]; [|done].
  destruct (IH (snd (gateway.add_server
                       {| gateway.name := n0; gateway.command := c;
                          gateway.args := default [] (entry_args cfg);
                          gateway.env := default ∅ (entry_env cfg) |} w)) Hn)
    as [-> ->].
  cbn. rewrite !lookup_insert_ne; [done| |done].
  intros Heq%entry_point_inj. done.
Qed.

(** [gateway.py] loads a configuration document without contacting any
    subsystem: whatever the document, the journal of connections and the
    tool cache are what they were. It stops with [KeyError('command')] at the
    first entry without a command, with the entries before it registered;
    and when every entry has its command and no name occurs twice, each
    entry is stored with its command, its args or [[]] and its env or [{}]
    and has its entry point. *)
Theorem gateway_load_config_is_offline items w :
  (journal (snd (gateway.load_config {| doc_mcpServers := Some items |} w))
   = journal w
   ∧ gateway._tools_cache
       (self (snd (gateway.load_config {| doc_mcpServers := Some items |} w)))
     = gateway._tools_cache (self w))
  ∧ (∀ before n cfg after,
       items = before ++ (n, cfg) :: after →
       Forall (fun item => is_Some (entry_command item.2)) before →
       entry_command cfg = None →
       gateway.load_config {| doc_mcpServers := Some items |} w
       = (Raised (KeyError (u "command")),
          snd (gateway.load_config {| doc_mcpServers := Some before |} w)))
  ∧ (Forall (fun item => is_Some (entry_command item.2)) items →
     NoDup items.*1 →
     ∀ n cfg, (n, cfg) ∈ items →
       ∃ c, entry_command cfg = Some c
         ∧ gateway.servers
             (self (snd (gateway.load_config
                           {| doc_mcpServers := Some items |} w))) !! n
           = Some {| gateway.name := n; gateway.command := c;
                     gateway.args := default [] (entry_args cfg);
                     gateway.env := default ∅ (entry_env cfg) |}
         ∧ app_tools
             (gateway.app
                (self (snd (gateway.load_config
                              {| doc_mcpServers := Some items |} w))))
             !! entry_point n
           = Some {| reg_description := gateway._build_description n;
                     reg_server :=
                       {| gateway.name := n; gateway.command := c;
                          gateway.args := default [] (entry_args cfg);
                          gateway.env := default ∅ (entry_env cfg) |} |}).
Proof.
  unfold gateway.load_config. cbn [default doc_mcpServers from_option id].
  split; [|split].
  - apply gateway_load_entries_offline.
  - intros before n cfg after -> Hok Hnone.
    rewrite (gateway_load_entries_app _ _ _ Hok), gateway_load_entries_cons.
    unfold gateway.parse_entry. by rewrite Hnone.
  - intros Hok. revert w.
    induction Hok as [|[n0 cfg0] rest [c0 Hc0] Hok IH]; intros w Hnd n cfg Hin.
    + by apply elem_of_nil in Hin.
    + cbn [fmap list_fmap fst] in Hnd.
      apply NoDup_cons in Hnd as [Hfresh Hnd].
      rewrite gateway_load_entries_cons. cbn [snd] in Hc0.
      rewrite (gateway_parse_entry_returns _ _ _ Hc0).
      apply elem_of_cons in Hin as [[= -> ->]|Hin].
      * destruct (gateway_load_entries_other rest
                    (snd (gateway.add_server
                            {| gateway.name := n0; gateway.command := c0;
                               gateway.args := default [] (entry_args cfg0);
                               gateway.env := default ∅ (entry_env cfg0) |}
                            w)) n0 Hfresh) as [-> ->].
        exists c0. cbn. unfold entry_point.
        rewrite !lookup_insert_eq. by split_and!.
      * by apply IH.
Qed.

Lemma gateway_load_config_is_offline_witness :
  gateway.load_config Fixtures.broken_third Fixtures.fresh'
  = (Raised (KeyError (u "command")),
     snd (gateway.load_config Fixtures.two_servers Fixtures.fresh'))
  ∧ ∃ c, gateway.servers
           (self (snd (gateway.load_config Fixtures.two_servers
                         Fixtures.fresh'))) !! u "git"
         = Some {| gateway.name := u "git"; gateway.command := c;
                   gateway.args := []; gateway.env := ∅ |}.
Proof.
  split.
  - destruct (gateway_load_config_is_offline
                (default [] (doc_mcpServers Fixtures.broken_third))
                Fixtures.fresh') as (_ & Hstop & _).
    apply (Hstop (default [] (doc_mcpServers Fixtures.two_servers))
             (u "db")
             {| entry_command := None; entry_args := Some [];
                entry_env := None |}
             [ (u "web", {| entry_command := Some (u "node");
                            entry_args := None; entry_env := None |}) ]).
    + reflexivity.
    + repeat constructor; by eexists.
    + reflexivity.
  - destruct (gateway_load_config_is_offline
                (default [] (doc_mcpServers Fixtures.two_servers))
                Fixtures.fresh') as (_ & _ & Hall).
    destruct (Hall) with (n := u "git")
                         (cfg := {| entry_command := Some (u "uvx");
                                    entry_args := None;
                                    entry_env := None |})
      as (c & _ & Hl & _).
    + repeat constructor; by eexists.
    + apply (bool_decide_unpack _). vm_compute. exact I.
    + apply list_elem_of_further, list_elem_of_here.
    + exists c. exact Hl.
Defined.

End GatewayLoadConfig.

(** ** Connections opened by a dispatch *)

(** A dispatch leaves the subsystem map and the registry alone and opens at
    most one connection. An action other than ["list"] opens exactly one, for
    that action with the params passed through as given, and leaves the tool
    cache alone. A ["list"] for a cached subsystem changes nothing at all; a
    ["list"] for an uncached one opens exactly one enumerating connection,
    whatever its outcome. Both source files agree. *)
Theorem dispatch_opens_at_most_one_connection (up : Upstream) (action : str)
    (params : Params) :
  (∀ server (w : gateway_mcp_server.Process),
     let w' := snd (gateway_mcp_server._handle_dispatch up server action
                      params w) in
     gateway_mcp_server.app (self w') = gateway_mcp_server.app (self w)
     ∧ gateway_mcp_server.servers (self w')
       = gateway_mcp_server.servers (self w)
     ∧ (action ≠ u "list" →
        journal w'
        = journal w ++ [CallTool (gateway_mcp_server.client_config server)
                          action params]
        ∧ gateway_mcp_server._tools_cache (self w')
          = gateway_mcp_server._tools_cache (self w))
     ∧ (action = u "list" →
        (is_Some (gateway_mcp_server._tools_cache (self w)
                    !! gateway_mcp_server.name server) → w' = w)
        ∧ (gateway_mcp_server._tools_cache (self w)
             !! gateway_mcp_server.name server = None →
           journal w'
           = journal w
             ++ [ListTools (gateway_mcp_server.client_config server)])))
  ∧ (∀ server (w : gateway.Process),
     let w' := snd (gateway._handle_dispatch up server action params w) in
     gateway.app (self w') = gateway.app (self w)
     ∧ gateway.servers (self w') = gateway.servers (self w)
     ∧ (action ≠ u "list" →
        journal w'
        = journal w ++ [CallTool (gateway.client_config server) action params]
        ∧ gateway._tools_cache (self w') = gateway._tools_cache (self w))
     ∧ (action = u "list" →
        (is_Some (gateway._tools_cache (self w) !! gateway.name server) →
         w' = w)
        ∧ (gateway._tools_cache (self w) !! gateway.name server = None →
           journal w'
           = journal w ++ [ListTools (gateway.client_config server)]))).
Proof.
  split.
  - intros server w. apply server_dispatch_effect.
  - intros server w. apply gateway_dispatch_effect.
Qed.

Lemma dispatch_opens_at_most_one_connection_witness :
  journal (snd (gateway_mcp_server._handle_dispatch Fixtures.down Fixtures.fs
                  (u "stat") ∅ Fixtures.fresh))
  = [CallTool (gateway_mcp_server.client_config Fixtures.fs) (u "stat") ∅]
  ∧ journal (snd (gateway._handle_dispatch Fixtures.down Fixtures.fs'
                    (u "list") ∅ Fixtures.fresh'))
    = [ListTools (gateway.client_config Fixtures.fs')].
Proof.
  split.
  - destruct (dispatch_opens_at_most_one_connection Fixtures.down (u "stat") ∅)
      as [H _].
    destruct (H Fixtures.fs Fixtures.fresh) as (_ & _ & Hcall & _).
    destruct Hcall as [-> _]; [vm_compute; discriminate|reflexivity].
  - destruct (dispatch_opens_at_most_one_connection Fixtures.down (u "list") ∅)
      as [_ H].
    destruct (H Fixtures.fs' Fixtures.fresh') as (_ & _ & _ & Hlist).
    destruct Hlist as [_ ->]; reflexivity.
Defined.

Lemma list_tools_event_is_no_invocation cfg : ¬ invokes_list (ListTools cfg).
Proof. intros (c & a & [=]). Qed.

Lemma server_add_server_journal up server (w : gateway_mcp_server.Process) :
  journal (snd (gateway_mcp_server.add_server up server w))
  = journal w ++ [ListTools (gateway_mcp_server.client_config server)].
Proof.
  destruct (add_server_effect up server w) as (s' & c' & -> & _). reflexivity.
Qed.

(** An upstream operation that is itself named ["list"] cannot be reached:
    no registration, load or dispatch ever opens a connection to invoke an
    operation of that name, so a journal without such an invocation never
    gets one. Both source files agree. *)
Theorem upstream_list_operation_is_unreachable (up : Upstream) :
  (∀ server action params (w : gateway_mcp_server.Process),
     Forall (fun ev => ¬ invokes_list ev) (journal w) →
     Forall (fun ev => ¬ invokes_list ev)
       (journal (snd (gateway_mcp_server._handle_dispatch up server action
                        params w))))
  ∧ (∀ data (w : gateway_mcp_server.Process),
     Forall (fun ev => ¬ invokes_list ev) (journal w) →
     Forall (fun ev => ¬ invokes_list ev)
       (journal (snd (gateway_mcp_server.load_config up data w))))
  ∧ (∀ server action params (w : gateway.Process),
     Forall (fun ev => ¬ invokes_list ev) (journal w) →
     Forall (fun ev => ¬ invokes_list ev)
       (journal (snd (gateway._handle_dispatch up server action params w)))).
Proof.
  split_and!.
  - intros server action params w Hj.
    destruct (server_dispatch_effect up server action params w)
      as (_ & _ & Hcall & Hlist).
    destruct (decide (action = u "list")) as [Ha|Ha].
    + destruct (Hlist Ha) as [Hhit Hmiss].
      destruct (gateway_mcp_server._tools_cache (self w)
                !! gateway_mcp_server.name server) eqn:E.
      * rewrite Hhit by done. exact Hj.
      * rewrite Hmiss by done. apply Forall_app. split; [exact Hj|].
        repeat constructor. apply list_tools_event_is_no_invocation.
    + destruct (Hcall Ha) as [-> _]. apply Forall_app. split; [exact Hj|].
      repeat constructor. intros (c & a & [= _ Hact _]). done.
  - intros data w. unfold gateway_mcp_server.load_config.
    apply (load_entries_preserves
             (fun w => Forall (fun ev => ¬ invokes_list ev) (journal w))).
    intros server w0 Hj. rewrite server_add_server_journal.
    apply Forall_app. split; [exact Hj|].
    repeat constructor. apply list_tools_event_is_no_invocation.
  - intros server action params w Hj.
    destruct (gateway_dispatch_effect up server action params w)
      as (_ & _ & Hcall & Hlist).
    destruct (decide (action = u "list")) as [Ha|Ha].
    + destruct (Hlist Ha) as [Hhit Hmiss].
      destruct (gateway._tools_cache (self w) !! gateway.name server) eqn:E.
      * rewrite Hhit by done. exact Hj.
      * rewrite Hmiss by done. apply Forall_app. split; [exact Hj|].
        repeat constructor. apply list_tools_event_is_no_invocation.
    + destruct (Hcall Ha) as [-> _]. apply Forall_app. split; [exact Hj|].
      repeat constructor. intros (c & a & [= _ Hact _]). done.
Qed.

Lemma upstream_list_operation_is_unreachable_witness :
  Forall (fun ev => ¬ invokes_list ev)
    (journal
       (snd (gateway_mcp_server._handle_dispatch Fixtures.up Fixtures.fs
               (u "list") ∅
               (snd (gateway_mcp_server.load_config Fixtures.up
                       Fixtures.two_servers Fixtures.fresh))))).
Proof.
  destruct (upstream_list_operation_is_unreachable Fixtures.up)
    as (Hdisp & Hload & _).
  apply Hdisp, Hload. constructor.
Defined.

(** ** The two files side by side *)

Lemma forget_tools_client_config (server : gateway_mcp_server.ServerConfig) :
  gateway.client_config (forget_tools server)
  = gateway_mcp_server.client_config server.
Proof. reflexivity. Qed.

Lemma same_process_connected (w : gateway_mcp_server.Process)
    (w' : gateway.Process) ev :
  same_process w w' → same_process (connected w ev) (connected w' ev).
Proof. intros [Hc Hj]. split; cbn; [exact Hc|by rewrite Hj]. Qed.

Lemma same_process_cache_store (w : gateway_mcp_server.Process)
    (w' : gateway.Process) k v :
  same_process w w' →
  same_process (gateway_mcp_server.cache_store k v w)
    (gateway.cache_store k v w').
Proof. intros [Hc Hj]. split; cbn; [by rewrite Hc|exact Hj]. Qed.

(** Dispatching in [gateway_mcp_server.py] and in [gateway.py] is the same
    thing: for the same subsystem and from processes with the same tool cache
    and the same journal, any action with any params gives the same outcome
    in both files and leaves them with the same tool cache and journal
    again. The later file differs from the earlier one at startup only. *)
Theorem two_files_dispatch_alike (up : Upstream)
    (server : gateway_mcp_server.ServerConfig) (action : str)
    (params : Params) (w : gateway_mcp_server.Process) (w' : gateway.Process) :
  same_process w w' →
  fst (gateway_mcp_server._handle_dispatch up server action params w)
  = fst (gateway._handle_dispatch up (forget_tools server) action params w')
  ∧ same_process
      (snd (gateway_mcp_server._handle_dispatch up server action params w))
      (snd (gateway._handle_dispatch up (forget_tools server) action params
              w')).
Proof.
  intros Hsame. pose proof Hsame as [Hc Hj].
  unfold gateway_mcp_server._handle_dispatch, gateway._handle_dispatch.
  case_decide as Ha.
  - destruct (gateway_mcp_server._tools_cache (self w)
              !! gateway_mcp_server.name server) as [ts|] eqn:E.
    + assert (gateway._tools_cache (self w')
              !! gateway.name (forget_tools server) = Some ts) as E'.
      { by rewrite <- Hc. }
      rewrite (ServerHandlers.server_list_hit _ _ _ _ E),
        (GatewayHandlers.gateway_list_hit _ _ _ _ E').
      by split.
    + assert (gateway._tools_cache (self w')
              !! gateway.name (forget_tools server) = None) as E'.
      { by rewrite <- Hc. }
      rewrite (ServerHandlers.server_list_miss _ _ _ E),
        (GatewayHandlers.gateway_list_miss _ _ _ E').
      cbv zeta. rewrite forget_tools_client_config, <- Hj.
      destruct (list_tools up _ _); cbn [fst snd];
        (split; [reflexivity|]);
        try apply (same_process_cache_store _ _ _ _);
        by apply same_process_connected.
  - rewrite ServerHandlers.server_call_cases,
      GatewayHandlers.gateway_call_cases.
    cbv zeta. rewrite forget_tools_client_config, <- Hj.
    destruct (call_tool up _ _ _ _); cbn [fst snd];
      (split; [reflexivity|]); by apply same_process_connected.
Qed.

Lemma two_files_dispatch_alike_witness :
  fst (gateway_mcp_server._handle_dispatch Fixtures.up Fixtures.fs (u "list")
         ∅ Fixtures.fresh)
  = fst (gateway._handle_dispatch Fixtures.up (forget_tools Fixtures.fs)
           (u "list") ∅ Fixtures.fresh').
Proof.
  apply (two_files_dispatch_alike Fixtures.up Fixtures.fs (u "list") ∅
           Fixtures.fresh Fixtures.fresh').
  split; reflexivity.
Defined.

(** ** Startup discovery and the list action together *)

Section StartupAndList.

Import gateway_mcp_server.




(** Operations discovered only by a later [list] never reach the
    description: when startup discovery fails for a config without
    short-form entries and a later [list] enumerates the subsystem, the
    cache gets the long forms, but the entry point keeps the description
    without preview and the stored config keeps its empty short-form list. *)
Theorem lazy_discovery_leaves_description (up up' : Upstream)
    (server : ServerConfig) (w : Process) (e : Exception)
    (tools' : list Tool) (params : Params) :
  tools server = [] →
  _tools_cache (self w) !! name server = None →
  call_error (list_tools up (journal w) (client_config server)) = Some e →
  let w1 := snd (add_server up server w) in
  list_tools up' (journal w1) (client_config server) = Clean tools' →
  let w2 := snd (_handle_dispatch up' server (u "list") params w1) in
  _tools_cache (self w2) !! name server = Some (map long_form tools')
  ∧ servers (self w2) !! name server = Some server
  ∧ app_tools (app (self w2)) !! entry_point (name server)
    = Some {| reg_description := base_desc server; reg_server := server |}.
Proof.
  intros Hnil Hmiss He w1 Hclean w2. subst w2 w1. revert Hclean.
  rewrite (add_server_after_failure _ _ _ _ He). cbn [snd]. intros Hclean.
  rewrite ServerCache.server_dispatch_list.
  rewrite ServerHandlers.server_list_miss by exact Hmiss.
  cbv zeta. rewrite Hclean. cbn. rewrite !lookup_insert_eq.
  unfold _build_description. rewrite Hnil. by split_and!.
Qed.

Lemma lazy_discovery_leaves_description_witness :
  app_tools
    (app (self (snd (_handle_dispatch Fixtures.flaky Fixtures.fs (u "list") ∅
                       (snd (add_server Fixtures.flaky Fixtures.fs
                               Fixtures.fresh)))))) !! entry_point (u "fs")
  = Some {| reg_description := base_desc Fixtures.fs;
            reg_server := Fixtures.fs |}.
Proof.
  apply (lazy_discovery_leaves_description Fixtures.flaky Fixtures.flaky
           Fixtures.fs Fixtures.fresh Fixtures.boom [Fixtures.stat] ∅);
    reflexivity.
Defined.

End StartupAndList.

(** ** Short forms *)

Section ShortForms.

Import gateway_mcp_server.

Lemma ellipsis_one_line : 10%N ∉ u "...".
Proof.
  intros Hin%list_elem_of_In. vm_compute in Hin.
  repeat (destruct Hin as [Hin|Hin]; [discriminate Hin|]). exact Hin.
Qed.

(** The description part of a short-form entry is one line of at most 80
    characters, whatever the upstream reports; so a short-form entry is at
    most 82 characters longer than the operation name, and it is a single
    line whenever the name is. *)
Theorem short_form_is_one_bounded_line (t : Tool) :
  ∃ desc,
    short_form t = tool_name t ++ u ": " ++ desc
    ∧ length desc ≤ 80
    ∧ (10%N ∉ desc)
    ∧ length (short_form t) ≤ length (tool_name t) + 82
    ∧ (10%N ∉ tool_name t → 10%N ∉ short_form t).
Proof.
  destruct (short_form_truncates t) as (desc & Heq & Hlong & Hshort & Hlen).
  destruct (first_line_is_first_line t) as (rest & _ & Hline & _).
  assert (10%N ∉ desc) as Hdesc.
  { destruct (decide (80 < length (first_line t))) as [Hgt|Hle].
    - destruct (Hlong Hgt) as [-> _].
      intros [Hin|Hin]%elem_of_app.
      + apply Hline. by apply (subseteq_take 77).
      + by apply ellipsis_one_line.
    - rewrite Hshort by lia. exact Hline. }
  exists desc. split_and!; [exact Heq|exact Hlen|exact Hdesc| |].
  - rewrite Heq, !length_app. change (length (u ": ")) with 2. lia.
  - intros Hname. rewrite Heq.
    intros [Hin|[Hin|Hin]%elem_of_app]%elem_of_app; [done| |done].
    apply list_elem_of_In in Hin. vm_compute in Hin.
    repeat (destruct Hin as [Hin|Hin]; [discriminate Hin|]). exact Hin.
Qed.

Lemma short_form_is_one_bounded_line_witness :
  (10%N ∉ short_form Fixtures.wordy)
  ∧ length (short_form Fixtures.wordy) ≤ 86.
Proof.
  destruct (short_form_is_one_bounded_line Fixtures.wordy)
    as (desc & _ & _ & _ & Hlen & Hline).
  split.
  - apply Hline. intros Hin%list_elem_of_In. vm_compute in Hin.
    repeat (destruct Hin as [Hin|Hin]; [discriminate Hin|]). exact Hin.
  - exact Hlen.
Defined.

Lemma lstrip_blank (d : str) :
  Forall (fun c => isspace c = true) d → lstrip d = [].
Proof.
  induction 1 as [|c d Hc _ IH]; [done|]. cbn [lstrip]. by rewrite Hc.
Qed.

(** A description that is not empty but consists of white space only is not
    replaced by the default text: its short form has an empty description
    part, while its long form keeps the white space. *)
Theorem blank_description_has_empty_short_form (t : Tool) (d : str) :
  tool_description t = Some d →
  d ≠ [] →
  Forall (fun c => isspace c = true) d →
  short_form t = tool_name t ++ u ": "
  ∧ long_form t = tool_name t ++ u ": " ++ d.
Proof.
  intros Hd Hne Hblank. unfold short_form, long_form, first_line.
  rewrite Hd. destruct d as [|c d]; [done|]. cbn [or_else].
  unfold strip. rewrite (lstrip_blank _ Hblank).
  split; [|reflexivity].
  change (first_field 10 (rstrip [])) with (@nil N).
  cbn [length]. by rewrite app_nil_r.
Qed.

Lemma blank_description_has_empty_short_form_witness :
  short_form {| tool_name := u "ping";
                tool_description := Some [32%N; 10%N; 9%N] |}
  = u "ping" ++ u ": ".
Proof.
  apply (blank_description_has_empty_short_form
           {| tool_name := u "ping";
              tool_description := Some [32%N; 10%N; 9%N] |}
           [32%N; 10%N; 9%N]); [reflexivity|discriminate|].
  repeat constructor.
Defined.

End ShortForms.

(** ** Descriptions *)

Section Descriptions.

Import gateway_mcp_server.

Lemma base_desc_names_subsystem (server : ServerConfig) :
  contains (name server) (base_desc server) = true.
Proof. unfold base_desc. apply contains_app. Qed.

Lemma startswith_app_r (p x y : str) :
  startswith p x = true → startswith p (x ++ y) = true.
Proof.
  revert x. induction p as [|a p IH]; intros x; [done|].
  destruct x as [|b x]; [discriminate|]. cbn.
  intros [-> Hp]%andb_true_iff. by rewrite IH.
Qed.

Lemma contains_app_r (p x y : str) :
  contains p x = true → contains p (x ++ y) = true.
Proof.
  induction x as [|a x IH].
  - destruct p; [by destruct y|cbn; discriminate].
  - rewrite <- app_comm_cons. cbn [contains].
    intros [Hs|Hc]%orb_true_iff.
    + apply (startswith_app_r _ _ y) in Hs.
      rewrite <- app_comm_cons in Hs. by rewrite Hs.
    + rewrite IH by done. apply orb_true_r.
Qed.

(** Every description starts with the fixed text and names the subsystem;
    the fixed text is the whole description of [gateway.py]. Of the
    short-form entries only the first 30 and the total number matter: two
    configs of the same name that agree on those have the same
    description. *)
Theorem description_shows_first_thirty_only (server : ServerConfig) :
  (∃ rest, _build_description server = base_desc server ++ rest)
  ∧ contains (name server) (_build_description server) = true
  ∧ gateway._build_description (name server) = base_desc server
  ∧ (∀ server',
       name server' = name server →
       take 30 (tools server') = take 30 (tools server) →
       length (tools server') = length (tools server) →
       _build_description server' = _build_description server).
Proof.
  assert (∃ rest, _build_description server = base_desc server ++ rest)
    as [rest Hrest].
  { unfold _build_description. destruct (tools server).
    - exists []. by rewrite app_nil_r.
    - eexists. reflexivity. }
  split_and!.
  - by exists rest.
  - rewrite Hrest. apply contains_app_r, base_desc_names_subsystem.
  - reflexivity.
  - intros server' Hn Htake Hlen. unfold _build_description, base_desc.
    rewrite Htake, Hlen, Hn.
    destruct (tools server') as [|t' ts'], (tools server) as [|t ts];
      try discriminate Hlen; reflexivity.
Qed.

Lemma description_shows_first_thirty_only_witness :
  _build_description
    (set_tools Fixtures.fs (replicate 30 (u "a: b") ++ [u "x: y"]))
  = _build_description Fixtures.fs31.
Proof.
  destruct (description_shows_first_thirty_only Fixtures.fs31)
    as (_ & _ & _ & H).
  apply H; vm_compute; reflexivity.
Defined.

End Descriptions.

(** ** Reading a normalized result back *)

Lemma split_join (c : N) (l : list str) :
  l ≠ [] → Forall (fun t => c ∉ t) l → split c (join [c] l) = l.
Proof.
  intros Hne Hl. induction Hl as [|t l Ht Hl IH]; [done|].
  destruct l as [|t' l].
  - by apply split_no_sep.
  - rewrite join_cons2. cbn [app]. rewrite split_app, IH by done.
    by rewrite (split_no_sep _ _ Ht).
Qed.

(** When no part of a result with content holds a line feed, splitting the
    normalized text at line feeds gives the parts back, one per content item
    and in order: nothing is lost, merged or reordered. Both source files
    agree. *)
Theorem extract_content_lines_round_trip (r : Result)
    (items : list ContentItem) :
  content r = Some items →
  items ≠ [] →
  Forall (fun item => 10%N ∉ item_part item) items →
  split 10 (gateway_mcp_server._extract_content r) = map item_part items
  ∧ split 10 (gateway._extract_content r) = map item_part items
  ∧ length (split 10 (gateway_mcp_server._extract_content r)) = length items.
Proof.
  intros Hc Hne Hparts.
  assert (split 10 (gateway_mcp_server._extract_content r)
          = map item_part items) as Heq.
  { rewrite (extract_server_items _ _ Hc Hne). apply split_join.
    - by destruct items.
    - by apply Forall_fmap. }
  split_and!.
  - exact Heq.
  - by rewrite extract_gateway_same.
  - by rewrite Heq, length_map.
Qed.

Lemma extract_content_lines_round_trip_witness :
  split 10 (gateway_mcp_server._extract_content Fixtures.hello)
  = [u "hello"; u "aGk="].
Proof.
  destruct (extract_content_lines_round_trip Fixtures.hello
              [ {| text := Some (u "hello"); data := None;
                   item_str := u "TextContent" |};
                {| text := None; data := Some {| py_str := u "aGk=" |};
                   item_str := u "ImageContent" |} ]) as (-> & _).
  - reflexivity.
  - discriminate.
  - repeat constructor; intros Hin%list_elem_of_In; vm_compute in Hin;
      repeat (destruct Hin as [Hin|Hin]; [discriminate Hin|]); exact Hin.
  - reflexivity.
Defined.

(** ** Telling failures from results *)

Lemma marker_code_points :
  u "❌" = [10060%N] ∧ u "📦 [" = [128230%N; 32%N; 91%N].
Proof. split; vm_compute; reflexivity. Qed.

Lemma list_response_unmarked name count body :
  startswith (u "❌")
    (u "📦 [" ++ name ++ u "] 可用工具 (" ++ count ++ u " 个):" ++ nl ++ nl
     ++ body) = false.
Proof. destruct marker_code_points as [-> ->]. reflexivity. Qed.

(** For the [list] action the failure marker is a sound and complete test:
    the returned string starts with ["❌"] exactly when the subsystem was not
    in the cache and the enumerating session failed. Both source files
    agree. *)
Theorem list_failure_marker_is_exact (up : Upstream) (params : Params) :
  (∀ server (w : gateway_mcp_server.Process) s,
     fst (gateway_mcp_server._handle_dispatch up server (u "list") params w)
     = Returned s →
     startswith (u "❌") s = true
     ↔ gateway_mcp_server._tools_cache (self w)
         !! gateway_mcp_server.name server = None
       ∧ is_Some (session_error
                    (list_tools up (journal w)
                       (gateway_mcp_server.client_config server))))
  ∧ (∀ server (w : gateway.Process) s,
     fst (gateway._handle_dispatch up server (u "list") params w)
     = Returned s →
     startswith (u "❌") s = true
     ↔ gateway._tools_cache (self w) !! gateway.name server = None
       ∧ is_Some (session_error
                    (list_tools up (journal w)
                       (gateway.client_config server)))).
Proof.
  split.
  - intros server w s. rewrite ServerCache.server_dispatch_list.
    destruct (gateway_mcp_server._tools_cache (self w)
              !! gateway_mcp_server.name server) as [ts|] eqn:E.
    + rewrite (ServerHandlers.server_list_hit _ _ _ _ E). intros [= <-].
      unfold gateway_mcp_server.list_response.
      rewrite list_response_unmarked. split; [discriminate|by intros [[=] _]].
    + rewrite (ServerHandlers.server_list_miss _ _ _ E). cbv zeta.
      destruct (list_tools up _ _) as [e|e|r e|r]; intros [= <-];
        cbn [session_error].
      1-3: destruct (list_failure_marked (message e)) as [Hm _];
        unfold list_failure; rewrite Hm; split; [by eauto|done].
      unfold gateway_mcp_server.list_response.
      rewrite list_response_unmarked.
      split; [discriminate|by intros [_ [? [=]]]].
  - intros server w s. rewrite GatewayCache.gateway_dispatch_list.
    destruct (gateway._tools_cache (self w) !! gateway.name server)
      as [ts|] eqn:E.
    + rewrite (GatewayHandlers.gateway_list_hit _ _ _ _ E). intros [= <-].
      unfold gateway.list_response.
      rewrite list_response_unmarked. split; [discriminate|by intros [[=] _]].
    + rewrite (GatewayHandlers.gateway_list_miss _ _ _ E). cbv zeta.
      destruct (list_tools up _ _) as [e|e|r e|r]; intros [= <-];
        cbn [session_error].
      1-3: destruct (list_failure_marked (message e)) as [Hm _];
        unfold list_failure; rewrite Hm; split; [by eauto|done].
      unfold gateway.list_response.
      rewrite list_response_unmarked.
      split; [discriminate|by intros [_ [? [=]]]].
Qed.

Lemma list_failure_marker_is_exact_witness :
  startswith (u "❌") (u "❌ 无法获取工具列表: boom") = true
  ∧ startswith (u "❌")
      (gateway.list_response Fixtures.fs'
         (map gateway.long_form [Fixtures.read_file; Fixtures.stat])) = false.
Proof.
  destruct (list_failure_marker_is_exact Fixtures.down ∅) as [Hs _].
  destruct (list_failure_marker_is_exact Fixtures.up ∅) as [_ Hg].
  split.
  - apply (Hs Fixtures.fs Fixtures.fresh); [vm_compute; reflexivity|].
    split; [vm_compute; reflexivity|by eexists].
  - apply not_true_is_false. intros Hm.
    apply (Hg Fixtures.fs' Fixtures.fresh') in Hm as [_ [e He]];
      [discriminate He|vm_compute; reflexivity].
Defined.

(** For an invocation the marker proves nothing: whenever an invocation
    fails, an upstream whose operation succeeds with a single text item
    holding the failure text makes the entry point return the very same
    string. Both source files agree. *)
Theorem invoke_failure_can_be_mimicked (up up' : Upstream) (action : str)
    (params : Params) (e : Exception) :
  action ≠ u "list" →
  (∀ server (w : gateway_mcp_server.Process),
     session_error (call_tool up (journal w)
                      (gateway_mcp_server.client_config server) action
                      params) = Some e →
     call_tool up' (journal w) (gateway_mcp_server.client_config server)
       action params
     = Clean (text_result
                (call_failure (gateway_mcp_server.name server) action e)) →
     fst (gateway_mcp_server._handle_dispatch up server action params w)
     = fst (gateway_mcp_server._handle_dispatch up' server action params w))
  ∧ (∀ server (w : gateway.Process),
     session_error (call_tool up (journal w) (gateway.client_config server)
                      action params) = Some e →
     call_tool up' (journal w) (gateway.client_config server) action params
     = Clean (text_result (call_failure (gateway.name server) action e)) →
     fst (gateway._handle_dispatch up server action params w)
     = fst (gateway._handle_dispatch up' server action params w)).
Proof.
  intros Ha. split.
  - intros server w He Hok.
    unfold gateway_mcp_server._handle_dispatch. rewrite !decide_False by done.
    rewrite (ServerHandlers.server_call_cases up),
      (ServerHandlers.server_call_cases up'). cbv zeta. rewrite Hok.
    destruct (call_tool up _ _ _ _); simpl in He; by simplify_eq.
  - intros server w He Hok.
    unfold gateway._handle_dispatch. rewrite !decide_False by done.
    rewrite (GatewayHandlers.gateway_call_cases up),
      (GatewayHandlers.gateway_call_cases up'). cbv zeta. rewrite Hok.
    destruct (call_tool up _ _ _ _); simpl in He; by simplify_eq.
Qed.

Lemma invoke_failure_can_be_mimicked_witness :
  fst (gateway_mcp_server._handle_dispatch Fixtures.down Fixtures.fs
         (u "stat") ∅ Fixtures.fresh)
  = fst (gateway_mcp_server._handle_dispatch Fixtures.mimic Fixtures.fs
           (u "stat") ∅ Fixtures.fresh).
Proof.
  destruct (invoke_failure_can_be_mimicked Fixtures.down Fixtures.mimic
              (u "stat") ∅ Fixtures.boom) as [H _].
  - vm_compute. discriminate.
  - apply H; reflexivity.
Defined.

(** ** Client configurations *)

(** The client configuration of a config launches exactly one server, under
    the config's name, with its command, args and env. The discovered
    short-form list never enters it, and two configs with the same client
    configuration launch the same subsystem; in [gateway.py] they are the
    same config. *)
Theorem client_config_launches_one_server
    (server : gateway_mcp_server.ServerConfig) :
  mcpServers (gateway_mcp_server.client_config server)
    !! gateway_mcp_server.name server
  = Some {| launch_command := gateway_mcp_server.command server;
            launch_args := gateway_mcp_server.args server;
            launch_env := gateway_mcp_server.env server |}
  ∧ size (mcpServers (gateway_mcp_server.client_config server)) = 1
  ∧ (∀ ts, gateway_mcp_server.client_config
             (gateway_mcp_server.set_tools server ts)
           = gateway_mcp_server.client_config server)
  ∧ (∀ server',
       gateway_mcp_server.client_config server
       = gateway_mcp_server.client_config server' →
       same_launch server server')
  ∧ (∀ s s' : gateway.ServerConfig,
       gateway.client_config s = gateway.client_config s' → s = s').
Proof.
  split_and!.
  - apply lookup_singleton_eq.
  - apply map_size_singleton.
  - reflexivity.
  - intros server' Heq. apply (f_equal mcpServers) in Heq.
    cbn [gateway_mcp_server.client_config mcpServers] in Heq.
    apply (inj2 (singletonM (M:=gmap str Launch))) in Heq
      as [Hn [= Hc Ha He]].
    by repeat split.
  - intros s s' Heq. apply (f_equal mcpServers) in Heq.
    cbn [gateway.client_config mcpServers] in Heq.
    apply (inj2 (singletonM (M:=gmap str Launch))) in Heq
      as [Hn [= Hc Ha He]].
    destruct s, s'; cbn in *. by subst.
Qed.

Lemma client_config_launches_one_server_witness :
  same_launch Fixtures.fs31 Fixtures.fs.
Proof.
  destruct (client_config_launches_one_server Fixtures.fs31)
    as (_ & _ & _ & H & _).
  apply H. reflexivity.
Defined.
